(** * Newton's Lens: the analysis pipeline of [backend/ai_analyzer.py]

  A shallow embedding of the class [ExperimentAnalyzer] and of the
  Python values and library calls it relies on, followed by the
  properties of the pipeline stated in the design specification.

  Layout: the Python runtime fragment ([Py]), the library functions
  the analyzer calls ([Json] for [json.loads], [Base64] for
  [base64.b64decode]), the analyzer itself (section [Analyzer]), the
  vocabulary of the properties, and then the lemmas and theorems.  The
  analyzer is parametrised by the library functions and the backend;
  [Json.loads] and [Base64.b64decode] are the instances used wherever
  a statement needs a concrete text to be decoded. *)

From Stdlib Require Import ZArith NArith List String Ascii Bool Lia.
From Stdlib Require Import PrimFloat Uint63 FloatOps.
From stdpp Require Import gmap list.

Set Warnings "-register-all,-inexact-float".
#[local] Open Scope string_scope.
#[local] Open Scope list_scope.
#[local] Open Scope N_scope.

(** ** The Python fragment *)

Module Py.

(** A Python [str] is a sequence of Unicode code points. *)
Definition str : Type := list N.

#[global] Instance str_eq_dec : EqDecision str := _.
#[global] Instance str_countable : Countable str := _.

(** String literals of this file are UTF-8 byte sequences; [of_string]
    decodes them to code points (well-formed input only: the literals
    written below). *)
Fixpoint utf8_decode (bs : list N) : str :=
  match bs with
  | [] => []
  | b0 :: r0 =>
      if b0 <? 128 then b0 :: utf8_decode r0
      else match r0 with
      | [] => [b0]
      | b1 :: r1 =>
          if b0 <? 224 then ((b0 - 192) * 64 + (b1 - 128)) :: utf8_decode r1
          else match r1 with
          | [] => [b0; b1]
          | b2 :: r2 =>
              if b0 <? 240
              then ((b0 - 224) * 4096 + (b1 - 128) * 64 + (b2 - 128)) :: utf8_decode r2
              else match r2 with
              | [] => [b0; b1; b2]
              | b3 :: r3 =>
                  ((b0 - 240) * 262144 + (b1 - 128) * 4096 + (b2 - 128) * 64 + (b3 - 128))
                    :: utf8_decode r3
              end
          end
      end
  end.

Definition of_string (s : string) : str :=
  utf8_decode (map N_of_ascii (list_ascii_of_string s)).

Coercion of_string : string >-> str.

(** A literal in which each apostrophe stands for a double quote. *)
Definition double_quotes (s : string) : str :=
  map (fun c => if c =? 39 then 34 else c) (of_string s).

(** [bytes] objects. *)
Definition bytes : Type := list Byte.byte.

(** Python values: what [json.loads] can return and what the canned
    analyses are made of.  A [dict] with [str] keys is a finite map;
    like Python's, its equality ignores insertion order. *)
Inductive value : Type :=
| VNone
| VBool (b : bool)
| VInt (z : Z)
| VFloat (f : float)
| VStr (s : str)
| VList (l : list value)
| VDict (d : gmap str value).

(** Exceptions, by class.  Every class listed derives from
    [Exception]; [JSONDecodeError] and [BinasciiError] are subclasses
    of [ValueError] but are kept apart because the handlers of the
    analyzer select on the exact class [json.JSONDecodeError].
    Signals that are not [Exception]s (KeyboardInterrupt, SystemExit)
    are asynchronous and outside this model. *)
Inductive exn : Type :=
| JSONDecodeError
| ValueError
| TypeError
| IndexError
| KeyError
| BinasciiError
| RecursionError
| ModelError (msg : str).

(** The outcome of running a piece of Python code. *)
Inductive result (A : Type) : Type :=
| Ok (a : A)
| Raise (e : exn).
Arguments Ok {A} a.
Arguments Raise {A} e.

Definition bind {A B} (r : result A) (k : A -> result B) : result B :=
  match r with
  | Ok a => k a
  | Raise e => Raise e
  end.

(** *** [str] methods *)

(** [str.isspace] on one code point (Unicode White_Space as CPython
    tabulates it). *)
Definition isspace (c : N) : bool :=
  ((9 <=? c) && (c <=? 13)) || ((28 <=? c) && (c <=? 32))
  || (c =? 133) || (c =? 160) || (c =? 5760)
  || ((8192 <=? c) && (c <=? 8202))
  || (c =? 8232) || (c =? 8233) || (c =? 8239) || (c =? 8287) || (c =? 12288).

Fixpoint lstrip (s : str) : str :=
  match s with
  | [] => []
  | c :: r => if isspace c then lstrip r else s
  end.

Definition rstrip (s : str) : str := rev (lstrip (rev s)).

(** [s.strip()] *)
Definition strip (s : str) : str := rstrip (lstrip s).

(** [s.startswith(prefix)] *)
Fixpoint startswith (s prefix : str) {struct prefix} : bool :=
  match prefix, s with
  | [], _ => true
  | _ :: _, [] => false
  | p :: prefix', c :: s' => (c =? p) && startswith s' prefix'
  end.

(** [s.endswith(suffix)] *)
Definition endswith (s suffix : str) : bool :=
  startswith (rev s) (rev suffix).

(** [s[n:]] *)
Definition slice_from (n : nat) (s : str) : str := drop n s.

(** [s[:-n]] for [n > 0] *)
Definition slice_drop_last (n : nat) (s : str) : str :=
  take (length s - n) s.

(** [s.split(sep)] for a separator [sep] of one character. *)
Fixpoint split (sep : N) (s : str) : list str :=
  match s with
  | [] => [[]]
  | c :: r =>
      if c =? sep then [] :: split sep r
      else match split sep r with
           | h :: t => (c :: h) :: t
           | [] => [[c]]
           end
  end.

(** [sub in s] for two strings *)
Fixpoint str_contains (s sub : str) : bool :=
  startswith s sub ||
  match s with
  | [] => false
  | _ :: r => str_contains r sub
  end.

(** *** Operations on values *)

(** [dict(pairs)] and dict displays: a later pair replaces an earlier
    one with the same key. *)
Definition dict_of_pairs (l : list (str * value)) : gmap str value :=
  fold_left (fun m p => <[ p.1 := p.2 ]> m) l ∅.

(** A dict display whose keys are literals. *)
Definition dict (l : list (string * value)) : value :=
  VDict (dict_of_pairs (map (fun p => (of_string p.1, p.2)) l)).

(** [v == k] for a string [k] *)
Definition eq_str (v : value) (k : str) : bool :=
  match v with
  | VStr s => bool_decide (s = k)
  | _ => false
  end.

(** [k in container] for a string [k]: key membership in a dict,
    element membership in a list, substring test in a string;
    [TypeError] for values that are not iterable. *)
Definition contains (container : value) (k : str) : result bool :=
  match container with
  | VDict d => Ok (bool_decide (is_Some (d !! k)))
  | VList l => Ok (existsb (fun v => eq_str v k) l)
  | VStr s => Ok (str_contains s k)
  | VNone | VBool _ | VInt _ | VFloat _ => Raise TypeError
  end.

(** [container[k] = v] for a string [k]: only a dict accepts it. *)
Definition setitem (container : value) (k : str) (v : value) : result value :=
  match container with
  | VDict d => Ok (VDict (<[ k := v ]> d))
  | _ => Raise TypeError
  end.

(** [container[k]] for a string [k], on a dict *)
Definition getitem (container : value) (k : str) : result value :=
  match container with
  | VDict d => match d !! k with
               | Some v => Ok v
               | None => Raise KeyError
               end
  | _ => Raise TypeError
  end.

(** [len(v)] *)
Definition len (v : value) : result nat :=
  match v with
  | VList l => Ok (length l)
  | VStr s => Ok (length s)
  | VDict d => Ok (size d)
  | _ => Raise TypeError
  end.

#[global] Instance value_inhabited : Inhabited value := populate VNone.

Definition is_dict (v : value) : bool :=
  match v with
  | VDict _ => true
  | _ => false
  end.

End Py.
Import Py.

Notation "'let!' x ':=' r 'in' k" := (Py.bind r (fun x => k))
(at level 10, x name, r at level 200, k at level 200).

(** ** [json.loads]

  The decoder of CPython's [json] package (scanner, [scanstring],
  object and array parsers) in its default configuration: strict
  mode, no hooks, the constants NaN, Infinity and -Infinity accepted.
  The position and message carried by [JSONDecodeError] are dropped.
  The interpreter's recursion limit is not modelled: nesting is
  bounded by the length of the text only. *)

Module Json.

Definition is_ws (c : N) : bool :=
  (c =? 32) || (c =? 9) || (c =? 10) || (c =? 13).

(** [WHITESPACE.match(s, idx).end()] *)
Fixpoint skip_ws (s : str) : str :=
  match s with
  | [] => []
  | c :: r => if is_ws c then skip_ws r else s
  end.

Definition is_digit (c : N) : bool := (48 <=? c) && (c <=? 57).

Definition hex_val (c : N) : option N :=
  if is_digit c then Some (c - 48)
  else if (97 <=? c) && (c <=? 102) then Some (c - 87)
  else if (65 <=? c) && (c <=? 70) then Some (c - 55)
  else None.

Definition hex4 (a b c d : N) : option N :=
  match hex_val a, hex_val b, hex_val c, hex_val d with
  | Some a, Some b, Some c, Some d => Some (((a * 16 + b) * 16 + c) * 16 + d)
  | _, _, _, _ => None
  end.

(** The one-letter escapes of [BACKSLASH]. *)
Definition unescape (e : N) : option N :=
  if (e =? 34) || (e =? 92) || (e =? 47) then Some e
  else if e =? 98 then Some 8
  else if e =? 102 then Some 12
  else if e =? 110 then Some 10
  else if e =? 114 then Some 13
  else if e =? 116 then Some 9
  else None.

Definition is_high_surrogate (u : N) : bool := (55296 <=? u) && (u <=? 56319).
Definition is_low_surrogate (u : N) : bool := (56320 <=? u) && (u <=? 57343).
Definition join_surrogates (hi lo : N) : N :=
  65536 + N.lor (N.shiftl (hi - 55296) 10) (lo - 56320).

(** [scanstring(s, end)]: [s] is the text after the opening quote,
    [acc] the characters read so far, most recent first.  Returns the
    string and the text after the closing quote. *)
Fixpoint scanstring (s : str) (acc : str) : result (str * str) :=
  match s with
  | [] => Raise JSONDecodeError
  | c :: r =>
      if c =? 34 then Ok (rev acc, r)
      else if c <? 32 then Raise JSONDecodeError
      else if negb (c =? 92) then scanstring r (c :: acc)
      else
        match r with
        | [] => Raise JSONDecodeError
        | e :: r1 =>
            if negb (e =? 117)
            then match unescape e with
                 | Some x => scanstring r1 (x :: acc)
                 | None => Raise JSONDecodeError
                 end
            else
              match r1 with
              | h1 :: h2 :: h3 :: h4 :: r2 =>
                  match hex4 h1 h2 h3 h4 with
                  | None => Raise JSONDecodeError
                  | Some uni =>
                      if negb (is_high_surrogate uni) then scanstring r2 (uni :: acc)
                      else
                        match r2 with
                        | b :: u :: r3 =>
                            if negb ((b =? 92) && (u =? 117)) then scanstring r2 (uni :: acc)
                            else
                              match r3 with
                              | g1 :: g2 :: g3 :: g4 :: r4 =>
                                  match hex4 g1 g2 g3 g4 with
                                  | None => Raise JSONDecodeError
                                  | Some uni2 =>
                                      if is_low_surrogate uni2
                                      then scanstring r4 (join_surrogates uni uni2 :: acc)
                                      else scanstring r2 (uni :: acc)
                                  end
                              | _ => Raise JSONDecodeError
                              end
                        | _ => scanstring r2 (uni :: acc)
                        end
                  end
              | _ => Raise JSONDecodeError
              end
        end
  end.

(** *** Numbers *)

(** The longest run of decimal digits at the head of [s]. *)
Fixpoint span_digits (s : str) : list N * str :=
  match s with
  | [] => ([], [])
  | c :: r =>
      if is_digit c then let (ds, rest) := span_digits r in (c - 48 :: ds, rest)
      else ([], s)
  end.

Definition digits_value (ds : list N) : Z :=
  fold_left (fun acc d => 10 * acc + Z.of_N d)%Z ds 0%Z.

Definition round_half_even_div (n d : Z) : Z :=
  let q := (n / d)%Z in
  match (2 * (n mod d) ?= d)%Z with
  | Lt => q
  | Gt => (q + 1)%Z
  | Eq => if Z.even q then q else (q + 1)%Z
  end.

(** The binary64 nearest to [num / den] ([num], [den] positive), ties
    to even, as [float()] computes it. *)
Definition float_of_ratio (num den : Z) : float :=
  let scaled (p : Z) : Z * Z :=
    if (0 <=? p)%Z then (num, den * 2 ^ p)%Z else (num * 2 ^ (- p), den)%Z in
  let p0 := (Z.log2 num - Z.log2 den - 52)%Z in
  let '(n0, d0) := scaled p0 in
  let p1 := if (n0 / d0 <? 2 ^ 52)%Z then (p0 - 1)%Z else p0 in
  let p := Z.max p1 (-1074) in
  let '(n, d) := scaled p in
  Z.ldexp (of_uint63 (Uint63.of_Z (round_half_even_div n d))) p.

(** [float(text)] for the decimal [m * 10 ^ e] with [n] digits in [m]. *)
Definition float_of_decimal (neg : bool) (m : Z) (n : nat) (e : Z) : float :=
  let magnitude :=
    if (m =? 0)%Z then zero
    else if (400 <? e + Z.of_nat n)%Z then infinity
    else if (e + Z.of_nat n <? -400)%Z then zero
    else if (0 <=? e)%Z then float_of_ratio (m * 10 ^ e) 1
    else float_of_ratio m (10 ^ (- e)) in
  if neg then (- magnitude)%float else magnitude.

(** [sys.int_max_str_digits]: [int()] refuses longer digit strings
    with a plain [ValueError]. *)
Definition int_max_str_digits : nat := 4300.

(** [NUMBER_RE] is an optional minus sign, an integer part (a single 0,
    or a nonzero digit followed by digits), an optional fraction (a dot
    and at least one digit) and an optional exponent (e or E, an
    optional sign, at least one digit).  The four functions below match
    these parts in turn; an optional part that cannot be completed
    matches nothing. *)

(** The sign. *)
Definition scan_sign (s : str) : bool * str :=
  match s with
  | c :: r => if c =? 45 then (true, r) else (false, s)
  | [] => (false, s)
  end.

(** The integer part. *)
Definition scan_int (s : str) : option (list N * str) :=
  match s with
  | [] => None
  | c :: r =>
      if negb (is_digit c) then None
      else if c =? 48 then Some ([0], r)
      else Some (span_digits s)
  end.

(** The fraction. *)
Definition scan_frac (s : str) : list N * str :=
  match s with
  | dot :: r =>
      if dot =? 46
      then match span_digits r with
           | ([], _) => ([], s)
           | (fs, r') => (fs, r')
           end
      else ([], s)
  | [] => ([], s)
  end.

(** The exponent. *)
Definition scan_exp (s : str) : option Z * str :=
  match s with
  | e :: r =>
      if (e =? 101) || (e =? 69)
      then
        let (eneg, r') :=
          match r with
          | sg :: r' =>
              if sg =? 45 then (true, r')
              else if sg =? 43 then (false, r')
              else (false, r)
          | [] => (false, r)
          end in
        match span_digits r' with
        | ([], _) => (None, s)
        | (es, r'') =>
            (Some (if eneg then (- digits_value es)%Z else digits_value es), r'')
        end
      else (None, s)
  | [] => (None, s)
  end.

(** [NUMBER_RE.match] followed by [parse_int] or [parse_float].
    [None] when the text does not start with a number. *)
Definition scan_number (s : str) : option (result value * str) :=
  let (neg, s) := scan_sign s in
  match scan_int s with
  | None => None
  | Some (ipart, s) =>
      let (frac, s) := scan_frac s in
      let (exp, s) := scan_exp s in
      match frac, exp with
      | [], None =>
          if (int_max_str_digits <? length ipart)%nat
          then Some (Raise ValueError, s)
          else Some (Ok (VInt (if neg then (- digits_value ipart)%Z
                               else digits_value ipart)), s)
      | _, _ =>
          let e := match exp with Some e => e | None => 0%Z end in
          Some (Ok (VFloat (float_of_decimal neg (digits_value (ipart ++ frac))
                              (length (ipart ++ frac))
                              (e - Z.of_nat (length frac)))), s)
      end
  end.

(** *** Values, objects and arrays *)

(** [scan_once(s, idx)], [JSONObject] and [JSONArray].  [fuel] bounds
    the number of nested calls; [loads] supplies more than the text
    can use (lemma [loads_fuel_suffices]).  [members] starts after the
    opening quote of a key, [elements] at the first character of an
    element. *)
Fixpoint scan_once (fuel : nat) (s : str) : result (value * str) :=
  match fuel with
  | O => Raise RecursionError
  | S fuel =>
      match s with
      | [] => Raise JSONDecodeError
      | c :: r =>
          if c =? 34 then
            let! kr := scanstring r [] in Ok (VStr kr.1, kr.2)
          else if c =? 123 then
            match skip_ws r with
            | c' :: r' =>
                if c' =? 125 then Ok (VDict ∅, r')
                else if c' =? 34 then members fuel ∅ r'
                else Raise JSONDecodeError
            | [] => Raise JSONDecodeError
            end
          else if c =? 91 then
            match skip_ws r with
            | c' :: r' =>
                if c' =? 93 then Ok (VList [], r')
                else elements fuel [] (c' :: r')
            | [] => Raise JSONDecodeError
            end
          else if startswith s "null" then Ok (VNone, drop 4 s)
          else if startswith s "true" then Ok (VBool true, drop 4 s)
          else if startswith s "false" then Ok (VBool false, drop 5 s)
          else
            match scan_number s with
            | Some (Ok v, rest) => Ok (v, rest)
            | Some (Raise e, _) => Raise e
            | None =>
                if startswith s "NaN" then Ok (VFloat nan, drop 3 s)
                else if startswith s "Infinity" then Ok (VFloat infinity, drop 8 s)
                else if startswith s "-Infinity" then Ok (VFloat neg_infinity, drop 9 s)
                else Raise JSONDecodeError
            end
      end
  end

with members (fuel : nat) (acc : gmap str value) (s : str) : result (value * str) :=
  match fuel with
  | O => Raise RecursionError
  | S fuel =>
      let! kr := scanstring s [] in
      match skip_ws kr.2 with
      | colon :: r =>
          if negb (colon =? 58) then Raise JSONDecodeError
          else
            let! vr := scan_once fuel (skip_ws r) in
            let acc := <[ kr.1 := vr.1 ]> acc in
            match skip_ws vr.2 with
            | c :: r =>
                if c =? 125 then Ok (VDict acc, r)
                else if negb (c =? 44) then Raise JSONDecodeError
                else
                  match skip_ws r with
                  | c' :: r' =>
                      if c' =? 34 then members fuel acc r'
                      else Raise JSONDecodeError
                  | [] => Raise JSONDecodeError
                  end
            | [] => Raise JSONDecodeError
            end
      | [] => Raise JSONDecodeError
      end
  end

with elements (fuel : nat) (acc : list value) (s : str) : result (value * str) :=
  match fuel with
  | O => Raise RecursionError
  | S fuel =>
      let! vr := scan_once fuel s in
      let acc := vr.1 :: acc in
      match skip_ws vr.2 with
      | c :: r =>
          if c =? 93 then Ok (VList (rev acc), r)
          else if negb (c =? 44) then Raise JSONDecodeError
          else elements fuel acc (skip_ws r)
      | [] => Raise JSONDecodeError
      end
  end.

(** [json.loads(s)] for a [str] argument. *)
Definition loads (s : str) : result value :=
  if startswith s [65279] then Raise JSONDecodeError
  else
    let! vr := scan_once (S (2 * length s)) (skip_ws s) in
    match skip_ws vr.2 with
    | [] => Ok vr.1
    | _ :: _ => Raise JSONDecodeError
    end.

End Json.

(** ** [base64.b64decode]

  [base64.b64decode(s)] with its default [validate=False], on a [str]
  argument: the text must be ASCII; characters outside the alphabet
  are skipped; decoding stops at a complete pad sequence; a dangling
  partial quad is an error ([binascii.Error]). *)

Module Base64.

(** [table_a2b_base64] *)
Definition b64_val (c : N) : option N :=
  if (65 <=? c) && (c <=? 90) then Some (c - 65)
  else if (97 <=? c) && (c <=? 122) then Some (c - 71)
  else if (48 <=? c) && (c <=? 57) then Some (c + 4)
  else if c =? 43 then Some 62
  else if c =? 47 then Some 63
  else None.

Definition byte_of_N (n : N) : Byte.byte :=
  match Byte.of_N (N.land n 255) with
  | Some b => b
  | None => Byte.x00
  end.

(** The loop of [binascii.a2b_base64]: [quad_pos] is the position in
    the current group of four characters, [leftchar] the bits not yet
    written, [pads] the number of pad characters seen since the last
    data character, [out] the bytes written, most recent first. *)
Fixpoint a2b_base64 (s : str) (quad_pos : nat) (leftchar : N) (pads : nat)
         (out : bytes) : result bytes :=
  match s with
  | [] => if (quad_pos =? 0)%nat then Ok (rev out) else Raise BinasciiError
  | c :: r =>
      if c =? 61 then
        if (2 <=? quad_pos)%nat
        then if (4 <=? quad_pos + S pads)%nat
             then Ok (rev out)
             else a2b_base64 r quad_pos leftchar (S pads) out
        else a2b_base64 r quad_pos leftchar pads out
      else
        match b64_val c with
        | None => a2b_base64 r quad_pos leftchar pads out
        | Some v =>
            match quad_pos with
            | 0%nat => a2b_base64 r 1 v 0 out
            | 1%nat =>
                a2b_base64 r 2 (N.land v 15) 0
                  (byte_of_N (N.lor (N.shiftl leftchar 2) (N.shiftr v 4)) :: out)
            | 2%nat =>
                a2b_base64 r 3 (N.land v 3) 0
                  (byte_of_N (N.lor (N.shiftl leftchar 4) (N.shiftr v 2)) :: out)
            | _ =>
                a2b_base64 r 0 0 0
                  (byte_of_N (N.lor (N.shiftl leftchar 6) v) :: out)
            end
        end
  end.

Definition b64decode (s : str) : result bytes :=
  if forallb (fun c => c <? 128) s
  then a2b_base64 s 0 0 0 []
  else Raise ValueError.

End Base64.

(** ** The class [ExperimentAnalyzer] *)

Section Analyzer.

(** The library and backend entry points the class calls:
    [json_loads] is [json.loads], [b64decode] is [base64.b64decode],
    and [generate_content prompt image_bytes] is the text of the
    backend's answer,
    [self.model.generate_content([prompt, {'mime_type': 'image/jpeg',
    'data': image_bytes}]).text].  The diagnostics the handlers print
    are not part of the model. *)
Variable json_loads : str -> result value.
Variable b64decode : str -> result bytes.
Variable generate_content : str -> bytes -> result str.

Record ExperimentAnalyzer : Type := { use_ai : bool }.

(** [__init__]: the credential is read from the process environment;
    an absent or empty [GEMINI_API_KEY] selects mock analysis. *)
Definition __init__ (environ : gmap str str) : ExperimentAnalyzer :=
  let api_key := default ("" : str) (environ !! ("GEMINI_API_KEY" : str)) in
  match api_key with
  | _ :: _ => {| use_ai := true |}
  | [] => {| use_ai := false |}
  end.

(** *** [_build_analysis_prompt] *)

Definition base_prompt : str :=
  "You are Newton's Lens, an expert AI lab assistant for science experiments.
Analyze this experimental setup image and provide a detailed analysis in JSON format.

Your analysis should include:
1. Components identified in the setup
2. How components are connected or arranged
3. Predicted outcome of the experiment
4. Safety warnings (if any)
5. Step-by-step guidance for proper execution
6. Confidence score (0-1)

Focus on:".

Definition focus_circuits : str :=
  "
- Identify electronic components (resistors, LEDs, batteries, wires, breadboards)
- Check for proper connections and polarity
- Calculate current and voltage if possible
- Warn about short circuits, reverse polarity, or component damage risks
- Provide guidance on proper circuit assembly".

Definition focus_chemistry : str :=
  "
- Identify chemicals, glassware, and equipment
- Check for proper safety equipment (gloves, goggles)
- Warn about dangerous chemical reactions
- Note proper mixing order and safety precautions
- Provide guidance on safe chemical handling".

Definition focus_physics : str :=
  "
- Identify mechanical components and setup
- Analyze forces, motion, or energy involved
- Check for stability and safety of the setup
- Predict physical outcomes
- Provide guidance on measurement and execution".

Definition focus_general : str :=
  "
- Identify all visible components and materials
- Analyze the experimental setup
- Provide safety recommendations
- Suggest proper execution steps".

Definition json_format : str :=
  double_quotes "

Return your analysis as a valid JSON object with this structure:
{
  'observations': 'Detailed description of what you see',
  'components': [
    {
      'type': 'component type',
      'properties': {'key': 'value'},
      'position': 'description',
      'connections': ['connected to']
    }
  ],
  'predicted_outcome': 'What will happen when this experiment is executed',
  'safety_warnings': [
    {
      'severity': 'low|medium|high|critical',
      'message': 'Warning message',
      'recommendation': 'How to fix it'
    }
  ],
  'guidance': [
    {
      'step': 1,
      'instruction': 'Step instruction'
    }
  ],
  'confidence_score': 0.95
}

Ensure the response is ONLY valid JSON, no additional text.".

Definition type_specific : gmap str str :=
  <[ ("general" : str) := focus_general ]>
    (<[ ("physics" : str) := focus_physics ]>
       (<[ ("chemistry" : str) := focus_chemistry ]>
          (<[ ("circuits" : str) := focus_circuits ]> ∅))).

Definition _build_analysis_prompt (experiment_type : str) : str :=
  base_prompt
    ++ default (type_specific !!! ("general" : str)) (type_specific !! experiment_type)
    ++ json_format.

(** *** [_mock_analysis] *)

Definition mock_circuits : value :=
  dict [
    ("observations", VStr "I can see a basic electrical circuit with a battery, LED, and wires. The LED appears to be connected directly to the battery without a current-limiting resistor.");
    ("components", VList [
      dict [
        ("type", VStr "LED");
        ("properties", dict [
          ("color", VStr "red");
          ("voltage", VStr "2V")]);
        ("position", VStr "center of breadboard");
        ("connections", VList [
          VStr "9V battery positive"])];
      dict [
        ("type", VStr "9V Battery");
        ("properties", dict [
          ("voltage", VStr "9V")]);
        ("position", VStr "left side");
        ("connections", VList [
          VStr "LED";
          VStr "ground wire"])]]);
    ("predicted_outcome", VStr "The LED will initially light up very brightly but will likely burn out within seconds due to excessive current. A 9V battery connected directly to an LED designed for 2-3V will cause permanent damage.");
    ("safety_warnings", VList [
      dict [
        ("severity", VStr "high");
        ("message", VStr "LED connected without current-limiting resistor");
        ("recommendation", VStr "Add a 470Ω to 1kΩ resistor in series with the LED to limit current to safe levels (10-20mA).")];
      dict [
        ("severity", VStr "medium");
        ("message", VStr "Voltage mismatch detected");
        ("recommendation", VStr "Use a lower voltage battery (3V) or add voltage regulation.")]]);
    ("guidance", VList [
      dict [
        ("step", VInt 1);
        ("instruction", VStr "Disconnect the LED from the battery immediately")];
      dict [
        ("step", VInt 2);
        ("instruction", VStr "Calculate required resistor: R = (V_battery - V_led) / I_desired = (9V - 2V) / 0.02A = 350Ω")];
      dict [
        ("step", VInt 3);
        ("instruction", VStr "Use a 470Ω resistor (standard value) in series with the LED")];
      dict [
        ("step", VInt 4);
        ("instruction", VStr "Connect resistor to LED anode (longer leg)")];
      dict [
        ("step", VInt 5);
        ("instruction", VStr "Connect LED cathode (shorter leg) to battery negative")];
      dict [
        ("step", VInt 6);
        ("instruction", VStr "Connect resistor other end to battery positive")];
      dict [
        ("step", VInt 7);
        ("instruction", VStr "Verify LED lights up at safe brightness level")]]);
    ("confidence_score", VFloat 0.85)].

Definition mock_chemistry : value :=
  dict [
    ("observations", VStr "I can see laboratory glassware including beakers and what appears to be chemicals. Safety equipment is present.");
    ("components", VList [
      dict [
        ("type", VStr "Beaker");
        ("properties", dict [
          ("volume", VStr "250ml")]);
        ("position", VStr "center of workspace");
        ("connections", VList [])];
      dict [
        ("type", VStr "Chemical reagents");
        ("properties", dict []);
        ("position", VStr "right side");
        ("connections", VList [])]]);
    ("predicted_outcome", VStr "When these chemicals are mixed, a reaction will occur. The exact outcome depends on the specific chemicals being used.");
    ("safety_warnings", VList [
      dict [
        ("severity", VStr "high");
        ("message", VStr "Always wear safety goggles and gloves when handling chemicals");
        ("recommendation", VStr "Put on appropriate personal protective equipment before proceeding.")];
      dict [
        ("severity", VStr "medium");
        ("message", VStr "Ensure proper ventilation");
        ("recommendation", VStr "Conduct experiment in a well-ventilated area or fume hood.")]]);
    ("guidance", VList [
      dict [
        ("step", VInt 1);
        ("instruction", VStr "Put on safety goggles and lab gloves")];
      dict [
        ("step", VInt 2);
        ("instruction", VStr "Verify all chemicals are properly labeled")];
      dict [
        ("step", VInt 3);
        ("instruction", VStr "Add chemicals slowly while stirring")];
      dict [
        ("step", VInt 4);
        ("instruction", VStr "Monitor for any unexpected reactions or heat generation")];
      dict [
        ("step", VInt 5);
        ("instruction", VStr "Dispose of chemicals properly according to lab protocols")]]);
    ("confidence_score", VFloat 0.75)].

Definition mock_physics : value :=
  dict [
    ("observations", VStr "I can see a mechanical setup with what appears to be a ramp and objects for motion experiments.");
    ("components", VList [
      dict [
        ("type", VStr "Inclined plane");
        ("properties", dict [
          ("angle", VStr "30 degrees")]);
        ("position", VStr "center");
        ("connections", VList [])];
      dict [
        ("type", VStr "Rolling object");
        ("properties", dict [
          ("shape", VStr "sphere")]);
        ("position", VStr "top of ramp");
        ("connections", VList [])]]);
    ("predicted_outcome", VStr "The object will roll down the inclined plane, accelerating due to gravity. The final velocity will depend on the height and friction coefficient.");
    ("safety_warnings", VList [
      dict [
        ("severity", VStr "low");
        ("message", VStr "Ensure the ramp is stable and won't tip over");
        ("recommendation", VStr "Secure the base of the ramp to prevent movement during the experiment.")]]);
    ("guidance", VList [
      dict [
        ("step", VInt 1);
        ("instruction", VStr "Measure and record the ramp angle")];
      dict [
        ("step", VInt 2);
        ("instruction", VStr "Mark starting and ending positions")];
      dict [
        ("step", VInt 3);
        ("instruction", VStr "Release the object gently from the starting position")];
      dict [
        ("step", VInt 4);
        ("instruction", VStr "Time the descent with a stopwatch")];
      dict [
        ("step", VInt 5);
        ("instruction", VStr "Calculate velocity and acceleration from your measurements")]]);
    ("confidence_score", VFloat 0.80)].

Definition mock_data : gmap str value :=
  <[ ("physics" : str) := mock_physics ]>
    (<[ ("chemistry" : str) := mock_chemistry ]>
       (<[ ("circuits" : str) := mock_circuits ]> ∅)).

Definition _mock_analysis (experiment_type : str) : value :=
  default (mock_data !!! ("circuits" : str)) (mock_data !! experiment_type).

(** *** [_parse_ai_response] *)

(** Lines 127-134: trim, drop a leading fence marker, drop a trailing
    fence marker, trim again. *)
Definition strip_code_fence (response_text : str) : str :=
  let response_text := strip response_text in
  let response_text :=
    if startswith response_text "```json" then slice_from 7 response_text
    else response_text in
  let response_text :=
    if startswith response_text "```" then slice_from 3 response_text
    else response_text in
  let response_text :=
    if endswith response_text "```" then slice_drop_last 3 response_text
    else response_text in
  strip response_text.

(** [if key not in analysis: analysis[key] = value] *)
Definition set_if_missing (analysis : value) (key : str) (v : value) : result value :=
  let! present := contains analysis key in
  if present then Ok analysis else setitem analysis key v.

(** The body of the [try] statement. *)
Definition _parse_ai_response_try (response_text : str) : result value :=
  let response_text := strip_code_fence response_text in
  let! analysis := json_loads response_text in
  let! analysis := set_if_missing analysis "safety_warnings" (VList []) in
  let! analysis := set_if_missing analysis "guidance" (VList []) in
  let! analysis := set_if_missing analysis "confidence_score" (VFloat 0.8) in
  Ok analysis.

(** The whole method: [except json.JSONDecodeError] returns the canned
    analysis; any other exception leaves the method. *)
Definition _parse_ai_response (response_text experiment_type : str) : result value :=
  match _parse_ai_response_try response_text with
  | Raise JSONDecodeError => Ok (_mock_analysis experiment_type)
  | Raise e => Raise e
  | Ok analysis => Ok analysis
  end.

(** *** [_analyze_with_ai] *)

(** The body of the [try] statement. *)
Definition _analyze_with_ai_try (image_data experiment_type : str) : result value :=
  let! image_data :=
    if startswith image_data "data:image"
    then match split 44 image_data !! 1%nat with
         | Some payload => Ok payload
         | None => Raise IndexError
         end
    else Ok image_data in
  let! image_bytes := b64decode image_data in
  let prompt := _build_analysis_prompt experiment_type in
  let! analysis_text := generate_content prompt image_bytes in
  let! analysis := _parse_ai_response analysis_text experiment_type in
  Ok analysis.

(** The whole method: [except Exception] returns the canned analysis. *)
Definition _analyze_with_ai (image_data experiment_type : str) : result value :=
  match _analyze_with_ai_try image_data experiment_type with
  | Ok analysis => Ok analysis
  | Raise _ => Ok (_mock_analysis experiment_type)
  end.

(** *** [analyze_image] *)

Definition analyze_image (self : ExperimentAnalyzer)
           (image_data experiment_type : str) : result value :=
  if use_ai self
  then _analyze_with_ai image_data experiment_type
  else Ok (_mock_analysis experiment_type).

End Analyzer.

(** ** Dynamic typing at the web boundary

    The routes of [backend/app.py] hand to the analyzer and to the
    persistence layer whatever the request body holds, so the code
    below works on untyped values.  [AttributeError] (a method looked
    up on a value that lacks it) and the exceptions of Flask and of the
    database client join the classes of [Py.exn]. *)

Module Dyn.

Inductive exception : Type :=
| Builtin (e : exn)
| AttributeError
| External (msg : str).

Inductive outcome (A : Type) : Type :=
| Return (a : A)
| Throw (e : exception).
Arguments Return {A} a.
Arguments Throw {A} e.

Definition lift {A} (r : result A) : outcome A :=
  match r with
  | Ok a => Return a
  | Raise e => Throw (Builtin e)
  end.

Definition obind {A B} (o : outcome A) (k : A -> outcome B) : outcome B :=
  match o with
  | Return a => k a
  | Throw e => Throw e
  end.

(** Code that also talks to a stateful service: the state is threaded,
    and a raised exception keeps the state reached. *)
Definition io (S A : Type) : Type := S -> outcome A * S.

Definition io_pure {S A} (o : outcome A) : io S A := fun st => (o, st).

Definition io_ret {S A} (a : A) : io S A := io_pure (Return a).

Definition io_throw {S A} (e : exception) : io S A := io_pure (Throw e).

Definition io_bind {S A B} (m : io S A) (k : A -> io S B) : io S B :=
  fun st =>
    match m st with
    | (Return a, st') => k a st'
    | (Throw e, st') => (Throw e, st')
    end.

(** [try: m except Exception as e: h e] *)
Definition io_catch {S A} (m : io S A) (h : exception -> io S A) : io S A :=
  fun st =>
    match m st with
    | (Return a, st') => (Return a, st')
    | (Throw e, st') => h e st'
    end.

(** [for x in items: body x] *)
Fixpoint for_each {S A} (items : list A) (body : A -> io S unit) : io S unit :=
  match items with
  | [] => io_ret tt
  | x :: rest => io_bind (body x) (fun _ => for_each rest body)
  end.

(** [bool(v)] *)
Definition truthy (v : value) : bool :=
  match v with
  | VNone => false
  | VBool b => b
  | VInt z => negb (z =? 0)%Z
  | VFloat f => negb (PrimFloat.eqb f 0)
  | VStr s => negb (bool_decide (s = []))
  | VList l => match l with [] => false | _ :: _ => true end
  | VDict d => negb (bool_decide (d = ∅))
  end.

(** [receiver.get(key, default)] for a string [key]: a method of dicts
    only. *)
Definition get (receiver : value) (key : str) (dflt : value) : outcome value :=
  match receiver with
  | VDict d => Return (default dflt (d !! key))
  | _ => Throw AttributeError
  end.

(** [table.get(key, default)] for a table with string keys and any
    [key]: a key that is not a string is not found; a list or a dict is
    not hashable. *)
Definition table_get {A} (table : gmap str A) (key : value) (dflt : A) : outcome A :=
  match key with
  | VStr k => Return (default dflt (table !! k))
  | VList _ | VDict _ => Throw (Builtin TypeError)
  | VNone | VBool _ | VInt _ | VFloat _ => Return dflt
  end.

(** [v[0]] *)
Definition first_item (v : value) : outcome value :=
  match v with
  | VList (x :: _) => Return x
  | VStr (c :: _) => Return (VStr [c])
  | VList [] | VStr [] => Throw (Builtin IndexError)
  | VDict _ => Throw (Builtin KeyError)
  | VNone | VBool _ | VInt _ | VFloat _ => Throw (Builtin TypeError)
  end.

(** [v[:n]] (on a dict: [TypeError] up to Python 3.11, where a slice is
    not hashable). *)
Definition slice_to (n : nat) (v : value) : outcome value :=
  match v with
  | VStr s => Return (VStr (take n s))
  | VList l => Return (VList (take n l))
  | _ => Throw (Builtin TypeError)
  end.

(** The items a [for] loop over [v] visits.  The keys of a dict come in
    the order of the finite map, not in insertion order; the loop of
    [analyze_experiment] fails on the first key whichever it is. *)
Definition iterate (v : value) : outcome (list value) :=
  match v with
  | VList l => Return l
  | VStr s => Return (map (fun c => VStr [c]) s)
  | VDict d => Return (map (fun p => VStr p.1) (map_to_list d))
  | VNone | VBool _ | VInt _ | VFloat _ => Throw (Builtin TypeError)
  end.

End Dyn.
Import Dyn.

Notation "'let?' x ':=' o 'in' k" := (Dyn.obind o (fun x => k))
(at level 10, x name, o at level 200, k at level 200).

Notation "'do!' x ':=' m 'in' k" := (Dyn.io_bind m (fun x => k))
(at level 10, x name, m at level 200, k at level 200).

(** ** The analyzer on untyped arguments

    [analyze_image] as [analyze_experiment] calls it: [image_data] and
    [experiment_type] are fields of the request body and need not be
    strings. *)

Section AnalyzerDyn.

Variable json_loads : str -> result value.
Variable b64decode : str -> result bytes.
Variable generate_content : str -> bytes -> result str.

Definition _mock_analysis_dyn (experiment_type : value) : outcome value :=
  table_get mock_data experiment_type (mock_data !!! ("circuits" : str)).

Definition _build_analysis_prompt_dyn (experiment_type : value) : outcome str :=
  let? focus := table_get type_specific experiment_type
                          (type_specific !!! ("general" : str)) in
  Return (base_prompt ++ focus ++ json_format).

Definition _parse_ai_response_dyn (response_text : str) (experiment_type : value)
  : outcome value :=
  match _parse_ai_response_try json_loads response_text with
  | Raise JSONDecodeError => _mock_analysis_dyn experiment_type
  | Raise e => Throw (Builtin e)
  | Ok analysis => Return analysis
  end.

Definition _analyze_with_ai_try_dyn (image_data experiment_type : value)
  : outcome value :=
  let? image_data :=
    match image_data with
    | VStr s =>
        if startswith s "data:image"
        then match split 44 s !! 1%nat with
             | Some payload => Return payload
             | None => Throw (Builtin IndexError)
             end
        else Return s
    | _ => Throw AttributeError
    end in
  let? image_bytes := lift (b64decode image_data) in
  let? prompt := _build_analysis_prompt_dyn experiment_type in
  let? analysis_text := lift (generate_content prompt image_bytes) in
  let? analysis := _parse_ai_response_dyn analysis_text experiment_type in
  Return analysis.

Definition _analyze_with_ai_dyn (image_data experiment_type : value) : outcome value :=
  match _analyze_with_ai_try_dyn image_data experiment_type with
  | Return analysis => Return analysis
  | Throw _ => _mock_analysis_dyn experiment_type
  end.

Definition analyze_image_dyn (self : ExperimentAnalyzer)
           (image_data experiment_type : value) : outcome value :=
  if use_ai self
  then _analyze_with_ai_dyn image_data experiment_type
  else _mock_analysis_dyn experiment_type.

End AnalyzerDyn.

(** ** The persistence layer: [backend/database.py] *)

Module Database.

Section Client.

(** The Supabase client: [store] is the state of the remote tables,
    [insert table row] is [client.table(table).insert(row).execute().data]
    and [select_by_id table id] is
    [client.table(table).select('*').eq('id', id).execute().data]. *)
Variable store : Type.
Variable insert : str -> value -> io store value.
Variable select_by_id : str -> value -> io store value.

(** [create_client(url, key)] *)
Variable create_client : str -> str -> outcome unit.

Definition __init__ (environ : gmap str str) : outcome unit :=
  let supabase_url := default ("" : str) (environ !! ("SUPABASE_URL" : str)) in
  let supabase_key :=
    default ("" : str) (environ !! ("SUPABASE_SERVICE_ROLE_KEY" : str)) in
  if bool_decide (supabase_url = []) || bool_decide (supabase_key = [])
  then Throw (Builtin ValueError)
  else create_client supabase_url supabase_key.

(** The dict display [session_data] of [create_analysis_session]; its
    entries are evaluated in order. *)
Definition session_data (experiment_id image_data analysis_result : value)
  : outcome value :=
  let? preview := slice_to 1000 image_data in
  let? observations := get analysis_result "observations" (VStr "") in
  let? components := get analysis_result "components" (VList []) in
  let? components_summary := lift (len components) in
  let? predicted_outcome := get analysis_result "predicted_outcome" (VStr "") in
  let? safety_warnings := get analysis_result "safety_warnings" (VList []) in
  let? guidance := get analysis_result "guidance" (VList []) in
  let? confidence_score := get analysis_result "confidence_score" (VFloat 0) in
  Return (dict [
    ("experiment_id", experiment_id);
    ("image_data", preview);
    ("ai_observations", dict [
      ("observations", observations);
      ("components_summary", VInt (Z.of_nat components_summary))]);
    ("predicted_outcome", predicted_outcome);
    ("safety_warnings", safety_warnings);
    ("guidance", guidance);
    ("confidence_score", confidence_score);
    ("status", VStr "completed")]).

(** [response.data[0]['id']] *)
Definition first_id (data : value) : outcome value :=
  let? row := first_item data in lift (getitem row "id").

(** The handler of each method prints the exception and raises it
    again. *)
Definition reraise {A} (e : exception) : io store A := io_throw e.

Definition create_analysis_session (experiment_id image_data analysis_result : value)
  : io store value :=
  io_catch
    (do! row := io_pure (session_data experiment_id image_data analysis_result) in
     do! data := insert "analysis_sessions" row in
     io_pure (first_id data))
    reraise.

(** The dict display [component_data] of [create_component]. *)
Definition component_data (session_id component : value) : outcome value :=
  let? component_type := get component "type" (VStr "unknown") in
  let? detected_properties := get component "properties" (dict []) in
  let? position := get component "position" (VStr "") in
  let? connections := get component "connections" (VList []) in
  Return (dict [
    ("session_id", session_id);
    ("component_type", component_type);
    ("detected_properties", detected_properties);
    ("position", dict [("description", position)]);
    ("connections", connections)]).

Definition create_component (session_id component : value) : io store value :=
  io_catch
    (do! row := io_pure (component_data session_id component) in
     do! data := insert "experiment_components" row in
     io_pure (first_id data))
    reraise.

Definition get_session (session_id : value) : io store value :=
  io_catch
    (do! data := select_by_id "analysis_sessions" session_id in
     if truthy data then io_pure (first_item data) else io_ret VNone)
    reraise.

End Client.

End Database.

(** ** The routes: [backend/app.py]

    The rate limiter, the cross-origin policy and the [/health] route
    (which reads the clock) are left out.  [jsonify(body), status] is
    the pair of the body and the status. *)

Module App.

Section Routes.

Variable json_loads : str -> result value.
Variable b64decode : str -> result bytes.
Variable generate_content : str -> bytes -> result str.
Variable store : Type.
Variable insert : str -> value -> io store value.
Variable select_by_id : str -> value -> io store value.

(** [str(e)] *)
Variable str_of_exception : exception -> str.

(** The module-level [analyzer = ExperimentAnalyzer()]. *)
Variable analyzer : ExperimentAnalyzer.

(** [not data or 'image_data' not in data] *)
Definition image_data_missing (data : value) : outcome bool :=
  if negb (truthy data) then Return true
  else let? present := lift (contains data "image_data") in Return (negb present).

(** The loop over the detected components. *)
Definition store_components (session_id analysis_result : value) : io store unit :=
  do! components := io_pure (get analysis_result "components" VNone) in
  if truthy components
  then
    do! components := io_pure (lift (getitem analysis_result "components")) in
    do! items := io_pure (iterate components) in
    for_each items
      (fun component =>
         do! component_id := Database.create_component store insert session_id component in
         io_ret tt)
  else io_ret tt.

(** [analyze_experiment]; [get_json] is the outcome of
    [request.get_json()]. *)
Definition analyze_experiment (get_json : outcome value) : io store (value * nat) :=
  io_catch
    (do! data := io_pure get_json in
     do! missing := io_pure (image_data_missing data) in
     if missing
     then io_ret (dict [("error", VStr "No image data provided")], 400%nat)
     else
       do! experiment_id := io_pure (get data "experiment_id" VNone) in
       do! experiment_type := io_pure (get data "experiment_type" (VStr "general")) in
       do! image_data := io_pure (get data "image_data" VNone) in
       do! analysis_result :=
         io_pure (analyze_image_dyn json_loads b64decode generate_content
                                    analyzer image_data experiment_type) in
       do! session_id :=
         Database.create_analysis_session store insert
                                          experiment_id image_data analysis_result in
       do! stored := store_components session_id analysis_result in
       io_ret (dict [("session_id", session_id);
                     ("status", VStr "completed");
                     ("analysis", analysis_result)], 200%nat))
    (fun e => io_ret (dict [("error", VStr (str_of_exception e))], 500%nat)).

(** [get_session(session_id)] *)
Definition get_session (session_id : str) : io store (value * nat) :=
  io_catch
    (do! session := Database.get_session store select_by_id (VStr session_id) in
     if negb (truthy session)
     then io_ret (dict [("error", VStr "Session not found")], 404%nat)
     else io_ret (session, 200%nat))
    (fun e => io_ret (dict [("error", VStr (str_of_exception e))], 500%nat)).

End Routes.

End App.

(** ** Vocabulary of the properties *)

(** The environment variable that carries the credential. *)
Definition api_key_name : str := "GEMINI_API_KEY".

(** No model credential is configured: the variable is unset or empty. *)
Definition no_credential (environ : gmap str str) : Prop :=
  environ !! api_key_name = None \/ environ !! api_key_name = Some ("" : str).

(** A model credential is configured. *)
Definition has_credential (environ : gmap str str) : Prop :=
  exists key : str, environ !! api_key_name = Some key /\ key <> ("" : str).

(** The domain keys of the prompt table and of the canned analyses. *)
Definition prompt_domains : list str :=
  [("circuits" : str); ("chemistry" : str); ("physics" : str); ("general" : str)].

Definition fallback_domains : list str :=
  [("circuits" : str); ("chemistry" : str); ("physics" : str)].

(** The three optional keys of a response with their default values. *)
Definition optional_defaults : gmap str value :=
  <[ ("confidence_score" : str) := VFloat 0.8 ]>
    (<[ ("guidance" : str) := VList [] ]>
       (<[ ("safety_warnings" : str) := VList [] ]> ∅)).

(** A text wrapped in a markdown code fence: the opening marker with
    its language tag (possibly empty), a line break, the text, a line
    break, the closing marker. *)
Definition code_fence (tag text : str) : str :=
  ("```" : str) ++ tag ++ [10] ++ text ++ [10] ++ ("```" : str).

(** [len(result[key])] *)
Definition field_len (r : value) (key : str) : result nat :=
  let! v := getitem r key in len v.

(** The severity enumeration of the result schema. *)
Definition severity_levels : list str :=
  [("low" : str); ("medium" : str); ("high" : str); ("critical" : str)].

(** [result['confidence_score']] when it is a float. *)
Definition confidence_of (r : value) : option float :=
  match getitem r "confidence_score" with
  | Ok (VFloat f) => Some f
  | _ => None
  end.

(** [[w['severity'] for w in result['safety_warnings']]] *)
Definition severities_of (r : value) : option (list str) :=
  match getitem r "safety_warnings" with
  | Ok (VList ws) =>
      mapM (fun w => match getitem w "severity" with
                     | Ok (VStr s) => Some s
                     | _ => None
                     end) ws
  | _ => None
  end.

(** [[g['step'] for g in result['guidance']]] *)
Definition steps_of (r : value) : option (list Z) :=
  match getitem r "guidance" with
  | Ok (VList gs) =>
      mapM (fun g => match getitem g "step" with
                     | Ok (VInt n) => Some n
                     | _ => None
                     end) gs
  | _ => None
  end.

(** The numbers 1, 2, ..., n. *)
Definition one_to (n : nat) : list Z := map Z.of_nat (seq 1 n).

(** Process environments and backends used in the examples. *)
Definition environ_without_key : gmap str str := ∅.

Definition environ_with_key : gmap str str :=
  {[ api_key_name := ("secret" : str) ]}.

Definition backend_answering (text : str) : str -> bytes -> result str :=
  fun _ _ => Ok text.

Definition backend_failing : str -> bytes -> result str :=
  fun _ _ => Raise (ModelError "quota exceeded").

(** A JSON array whose elements are the three optional keys. *)
Definition keys_array_text : str :=
  double_quotes "['safety_warnings', 'guidance', 'confidence_score']".

(** Backend answers used in the examples. *)
Definition not_json_text : str := "I cannot analyse this image.".

Definition array_text : str := "[1, 2]".

Definition empty_object_text : str := "{}".

Definition partial_response_text : str :=
  double_quotes "{'observations': 'a lamp', 'guidance': []}".

Definition partial_response : gmap str value :=
  dict_of_pairs [(("observations" : str), VStr "a lamp"); (("guidance" : str), VList [])].

(** A text delimited by braces, with white space around it. *)
Definition braced (text body : str) : Prop :=
  exists ws1 mid ws2,
    text = ws1 ++ 123 :: mid ++ 125 :: ws2 /\ body = 123 :: mid ++ [125] /\
    forallb isspace ws1 = true /\ forallb isspace ws2 = true.

(** The value holds each of the three optional keys, in the sense of
    the [in] operator: as a key of a dict, an element of a list, a
    substring of a string. *)
Definition has_key (v : value) (key : str) : bool :=
  match contains v key with
  | Ok present => present
  | Raise _ => false
  end.

Definition has_optional_keys (v : value) : bool :=
  has_key v "safety_warnings" && has_key v "guidance" && has_key v "confidence_score".

(** A client that also keeps the log of the rows it was asked to
    write, in order. *)
Definition recording {S : Type} (insert : str -> value -> io S value)
  : str -> value -> io (S * list (str * value)) value :=
  fun table row st =>
    let (answer, s) := insert table row st.1 in
    (answer, (s, st.2 ++ [(table, row)])).

(** The store accepts every row that is an object: it answers the
    insert with at least one row, and that row carries an id. *)
Definition accepting {S : Type} (insert : str -> value -> io S value) : Prop :=
  forall table (row : gmap str value) st,
  exists data id st',
    insert table (VDict row) st = (Return data, st') /\
    Database.first_id data = Return id.

(** The responses of the routes: [jsonify({'error': text}), status] and
    the body of a completed analysis. *)
Definition error_response (text : str) (status : nat) : value * nat :=
  (dict [("error", VStr text)], status).

Definition completed_response (session_id analysis_result : value) : value * nat :=
  (dict [("session_id", session_id);
         ("status", VStr "completed");
         ("analysis", analysis_result)], 200%nat).

(** [analysis['components']] when it is a list, no component
    otherwise. *)
Definition components_of (analysis : value) : list value :=
  match getitem analysis "components" with
  | Ok (VList components) => components
  | _ => []
  end.

(** The logged write [entry] is the row of [component] for the session
    [session_id], written to the table of components. *)
Definition component_row (session_id component : value) (entry : str * value) : Prop :=
  entry.1 = ("experiment_components" : str) /\
  Database.component_data session_id component = Return entry.2.

(** An in-memory store for the examples: the rows written so far, each
    with the id the store gave it. *)
Definition memory_store : Type := list (str * gmap str value).

Definition row_id (n : nat) : value := VStr (replicate (S n) 120).

Definition memory_insert (table : str) (row : value) : io memory_store value :=
  fun st =>
    match row with
    | VDict d =>
        let stored := <[ ("id" : str) := row_id (length st) ]> d in
        (Return (VList [VDict stored]), st ++ [(table, stored)])
    | _ => (Throw (External "the row is not an object"), st)
    end.

Definition memory_select (table : str) (id : value) : io memory_store value :=
  fun st =>
    (Return (VList (map (fun p => VDict p.2)
                        (List.filter
                           (fun p => bool_decide (p.1 = table) &&
                                     match id, p.2 !! ("id" : str) with
                                     | VStr a, Some (VStr b) => bool_decide (a = b)
                                     | _, _ => false
                                     end) st))), st).

(** A store that refuses every write. *)
Definition refusing_insert (table : str) (row : value) : io memory_store value :=
  io_throw (External "connection refused").

(** A store that accepts sessions and refuses components. *)
Definition sessions_only_insert (table : str) (row : value) : io memory_store value :=
  if bool_decide (table = ("analysis_sessions" : str))
  then memory_insert table row
  else io_throw (External "connection refused").

Definition exception_text (e : exception) : str :=
  match e with
  | External msg => msg
  | AttributeError => "object has no attribute"
  | Builtin _ => "error"
  end.

(** Request bodies used in the examples. *)
Definition body_with_image : value :=
  dict [("experiment_id", VStr "exp-1"); ("image_data", VStr "/9j/4AAQ")].

Definition body_without_image : value :=
  dict [("experiment_type", VStr "physics")].

(** A number too long for [int()]. *)
Definition long_number_text : str := replicate 4301 49.

(** A request served without a credential by the in-memory store, with
    the log of the rows written. *)
Definition sample_run : outcome (value * nat) * (memory_store * list (str * value)) :=
  App.analyze_experiment Json.loads Base64.b64decode backend_failing
                         (memory_store * list (str * value)) (recording memory_insert)
                         exception_text (__init__ environ_without_key)
                         (Return body_with_image) ([], []).

(** The body of the response of a run. *)
Definition response_body {S : Type} (run : outcome (value * nat) * S) : value :=
  match run.1 with
  | Return response => response.1
  | Throw _ => VNone
  end.

(** The fields of a dictionary. *)
Definition fields_of (v : value) : gmap str value :=
  match v with
  | VDict d => d
  | _ => ∅
  end.

(** An in-memory store that holds one session. *)
Definition stored_session : gmap str value :=
  dict_of_pairs [(("id" : str), row_id 0); (("status" : str), VStr "completed")].

Definition sample_store : memory_store :=
  [(("analysis_sessions" : str), stored_session)].

(** A backend answer whose components are names, not objects. *)
Definition named_components_text : str :=
  double_quotes "{'components': ['LED']}".

Definition named_components : gmap str value :=
  dict_of_pairs [(("components" : str), VList [VStr "LED"])].

(** * Properties *)

(** ** Facts about [str] methods *)

Lemma lstrip_app_space (ws s : str) :
  forallb isspace ws = true -> lstrip (ws ++ s) = lstrip s.
Proof.
  induction ws as [|c ws IH]; simpl; [done|].
  intros [Hc Hws]%andb_prop. rewrite Hc. auto.
Qed.

Lemma rstrip_app_space (s ws : str) :
  forallb isspace ws = true -> rstrip (s ++ ws) = rstrip s.
Proof.
  intros Hws. unfold rstrip. rewrite rev_app_distr.
  rewrite lstrip_app_space; [done|].
  rewrite forallb_forall in *. intros x Hx. apply Hws. by apply in_rev.
Qed.

Lemma lstrip_nonspace (c : N) (s : str) :
  isspace c = false -> lstrip (c :: s) = c :: s.
Proof. intros H. simpl. by rewrite H. Qed.

Lemma rstrip_nonspace (s : str) (c : N) :
  isspace c = false -> rstrip (s ++ [c]) = s ++ [c].
Proof.
  intros H. unfold rstrip. rewrite rev_app_distr. simpl. rewrite H.
  simpl. by rewrite rev_involutive.
Qed.

Lemma strip_delimited (ws1 ws2 mid : str) (a b : N) :
  forallb isspace ws1 = true -> forallb isspace ws2 = true ->
  isspace a = false -> isspace b = false ->
  strip (ws1 ++ a :: mid ++ b :: ws2) = a :: mid ++ [b].
Proof.
  intros H1 H2 Ha Hb. unfold strip.
  rewrite lstrip_app_space by assumption. rewrite lstrip_nonspace by assumption.
  replace (a :: mid ++ b :: ws2) with (((a :: mid) ++ [b]) ++ ws2)
    by (by rewrite <- app_assoc).
  rewrite rstrip_app_space by assumption. by rewrite rstrip_nonspace by assumption.
Qed.

Lemma startswith_app (p s : str) : startswith (p ++ s) p = true.
Proof. induction p as [|c p IH]; simpl; [done|]. by rewrite N.eqb_refl. Qed.

Lemma endswith_app (s p : str) : endswith (s ++ p) p = true.
Proof. unfold endswith. rewrite rev_app_distr. apply startswith_app. Qed.

Lemma endswith_last_ne (s : str) (c x : N) (p : str) :
  c <> x -> endswith (s ++ [c]) (p ++ [x]) = false.
Proof.
  intros Hne. unfold endswith. rewrite !rev_app_distr. simpl.
  apply andb_false_intro1. by apply N.eqb_neq.
Qed.

Lemma slice_drop_last_app (s p : str) :
  slice_drop_last (length p) (s ++ p) = s.
Proof.
  unfold slice_drop_last. rewrite length_app.
  replace (length s + length p - length p)%nat with (length s) by lia.
  by rewrite take_app_length.
Qed.

Lemma startswith_head_ne (s p : str) (c x : N) :
  c <> x -> startswith (c :: s) (x :: p) = false.
Proof. intros H. simpl. apply andb_false_intro1. by apply N.eqb_neq. Qed.

(** ** The error monad *)

Lemma bind_ok {A B} (r : result A) (k : A -> result B) (b : B) :
  bind r k = Ok b -> exists a, r = Ok a /\ k a = Ok b.
Proof. destruct r; simpl; [eauto|done]. Qed.

(** ** Facts about the JSON decoder *)

Lemma is_ws_isspace (c : N) : Json.is_ws c = true -> isspace c = true.
Proof.
  unfold Json.is_ws, isspace. intros H.
  repeat (apply orb_prop in H as [H|H]); apply N.eqb_eq in H; by subst.
Qed.

Lemma forallb_is_ws_isspace (ws : str) :
  forallb Json.is_ws ws = true -> forallb isspace ws = true.
Proof.
  rewrite !forallb_forall. intros H x Hx. apply is_ws_isspace. by apply H.
Qed.

Lemma skip_ws_split (s : str) :
  exists ws, s = ws ++ Json.skip_ws s /\ forallb Json.is_ws ws = true.
Proof.
  induction s as [|c s (ws & Hs & Hws)]; simpl.
  - by exists [].
  - destruct (Json.is_ws c) eqn:Hc.
    + exists (c :: ws). simpl. rewrite Hc, Hws. by rewrite <- Hs.
    + by exists [].
Qed.

Lemma skip_ws_suffix (s : str) : Json.skip_ws s `suffix_of` s.
Proof. destruct (skip_ws_split s) as (ws & Hs & _). by exists ws. Qed.

Lemma skip_ws_nil (s : str) : Json.skip_ws s = [] -> forallb Json.is_ws s = true.
Proof.
  intros H. destruct (skip_ws_split s) as (ws & Hs & Hws).
  rewrite H, app_nil_r in Hs. by subst.
Qed.

Lemma skip_ws_cons_suffix (s : str) (c : N) (r t : str) :
  Json.skip_ws s = c :: r -> s `suffix_of` t -> r `suffix_of` t.
Proof.
  intros H Hs. apply suffix_cons_l with c. rewrite <- H.
  etrans; [apply skip_ws_suffix|done].
Qed.

Lemma skip_ws_cons_suffix' (s : str) (c : N) (r t : str) :
  Json.skip_ws s = c :: r -> s `suffix_of` t -> (c :: r) `suffix_of` t.
Proof.
  intros H Hs. rewrite <- H. etrans; [apply skip_ws_suffix|done].
Qed.

Lemma scanstring_suffix_bounded (n : nat) :
  forall (s acc k rest : str),
    (length s <= n)%nat ->
    Json.scanstring s acc = Ok (k, rest) -> rest `suffix_of` s.
Proof.
  induction n as [|n IH]; intros s acc k rest Hlen H.
  - destruct s; simpl in *; [discriminate | lia].
  - destruct s as [|c r]; simpl in H; [discriminate|].
    repeat (case_match; simplify_eq; try discriminate);
      try (eapply IH in H; [|simpl in *; lia]);
      repeat first [ done | apply suffix_cons_r ].
Qed.

Lemma scanstring_suffix (s acc k rest : str) :
  Json.scanstring s acc = Ok (k, rest) -> rest `suffix_of` s.
Proof. by apply (scanstring_suffix_bounded (length s)). Qed.

Lemma span_digits_suffix (s : str) (ds : list N) (rest : str) :
  Json.span_digits s = (ds, rest) -> rest `suffix_of` s.
Proof.
  revert ds rest. induction s as [|c s IH]; simpl; intros ds rest H.
  - by simplify_eq.
  - destruct (Json.is_digit c).
    + destruct (Json.span_digits s) as [ds' rest'] eqn:E. simplify_eq.
      apply suffix_cons_r. by eapply IH.
    + by simplify_eq.
Qed.

Lemma scan_sign_suffix (s : str) (neg : bool) (rest : str) :
  Json.scan_sign s = (neg, rest) -> rest `suffix_of` s.
Proof.
  unfold Json.scan_sign. intros H.
  repeat (case_match; simplify_eq); repeat first [ done | apply suffix_cons_r ].
Qed.

Lemma scan_int_suffix (s : str) (ds : list N) (rest : str) :
  Json.scan_int s = Some (ds, rest) -> rest `suffix_of` s.
Proof.
  unfold Json.scan_int. intros H.
  repeat (case_match; simplify_eq).
  - by apply suffix_cons_r.
  - by eapply span_digits_suffix.
Qed.

Lemma scan_frac_suffix (s : str) (ds : list N) (rest : str) :
  Json.scan_frac s = (ds, rest) -> rest `suffix_of` s.
Proof.
  unfold Json.scan_frac. intros H.
  repeat (case_match; simplify_eq); try done.
  apply suffix_cons_r. by eapply span_digits_suffix.
Qed.

Lemma scan_exp_suffix (s : str) (e : option Z) (rest : str) :
  Json.scan_exp s = (e, rest) -> rest `suffix_of` s.
Proof.
  unfold Json.scan_exp. intros H.
  repeat (case_match; simplify_eq); try done;
    match goal with
    | H : Json.span_digits _ = _ |- _ => apply span_digits_suffix in H
    end;
    repeat first [ done | apply suffix_cons_r ].
Qed.

Lemma scan_number_suffix (s : str) (r : result value) (rest : str) :
  Json.scan_number s = Some (r, rest) -> rest `suffix_of` s.
Proof.
  unfold Json.scan_number. intros H.
  destruct (Json.scan_sign s) as [neg s1] eqn:E1.
  destruct (Json.scan_int s1) as [[ipart s2]|] eqn:E2; [|done].
  destruct (Json.scan_frac s2) as [frac s3] eqn:E3.
  destruct (Json.scan_exp s3) as [exp s4] eqn:E4.
  apply scan_sign_suffix in E1. apply scan_int_suffix in E2.
  apply scan_frac_suffix in E3. apply scan_exp_suffix in E4.
  assert (s4 `suffix_of` s) by (do 3 (etrans; [eassumption|]); done).
  repeat (case_match; simplify_eq); done.
Qed.

Lemma scan_number_not_dict (s : str) (v : value) (rest : str) :
  Json.scan_number s = Some (Ok v, rest) -> is_dict v = false.
Proof.
  unfold Json.scan_number. intros H.
  repeat (case_match; simplify_eq); done.
Qed.

Lemma scan_suffix (fuel : nat) :
  (forall s v rest,
      Json.scan_once fuel s = Ok (v, rest) ->
      rest `suffix_of` s /\
      (is_dict v = true -> exists mid, s = 123 :: mid ++ 125 :: rest)) /\
  (forall acc s v rest,
      Json.members fuel acc s = Ok (v, rest) ->
      (125 :: rest) `suffix_of` s) /\
  (forall acc s v rest,
      Json.elements fuel acc s = Ok (v, rest) ->
      rest `suffix_of` s /\ is_dict v = false).
Proof.
  induction fuel as [|fuel (IHs & IHm & IHe)]; [by repeat split|].
  split; [|split].
  - intros s v rest H. cbn [Json.scan_once] in H.
    destruct s as [|c r]; [done|].
    destruct (c =? 34) eqn:Hq.
    { apply bind_ok in H as ([k r'] & Hk & [= <- <-]).
      apply scanstring_suffix in Hk. split; [by apply suffix_cons_r|done]. }
    destruct (c =? 123) eqn:Hobj.
    { apply N.eqb_eq in Hobj as ->.
      destruct (Json.skip_ws r) as [|c' r'] eqn:Hr; [done|].
      destruct (skip_ws_split r) as (ws & Hws & _). rewrite Hr in Hws.
      clear Hr. subst r.
      destruct (c' =? 125) eqn:Hc'.
      - apply N.eqb_eq in Hc' as ->. simplify_eq. split.
        + by apply suffix_cons_r, suffix_app_r, suffix_cons_r.
        + intros _. by exists ws.
      - destruct (c' =? 34) eqn:Hc''; [|done].
        apply IHm in H as [k Hk]. subst r'. split.
        + apply suffix_cons_r, suffix_app_r, suffix_cons_r, suffix_app_r.
          by apply suffix_cons_r.
        + intros _. exists (ws ++ c' :: k). by rewrite <- app_assoc. }
    destruct (c =? 91) eqn:Harr.
    { destruct (Json.skip_ws r) as [|c' r'] eqn:Hr; [done|].
      pose proof (skip_ws_suffix r) as Hsfx. rewrite Hr in Hsfx.
      destruct (c' =? 93) eqn:Hc'.
      - simplify_eq. split; [|done].
        apply suffix_cons_r. by apply suffix_cons_l with c'.
      - apply IHe in H as [H1 H2]. split; [|by rewrite H2].
        apply suffix_cons_r. by etrans. }
    repeat (case_match; simplify_eq);
      try (split; [apply suffix_cons_r, suffix_drop|done]);
      lazymatch goal with
      | H : Json.scan_number _ = _ |- _ =>
          split; [by apply scan_number_suffix in H
                 |by apply scan_number_not_dict in H as ->]
      end.
  - intros acc s v rest H. simpl in H.
    apply bind_ok in H as ([k r0] & Hk & H). simpl in H.
    apply scanstring_suffix in Hk.
    destruct (Json.skip_ws r0) as [|colon r1] eqn:E1; [done|].
    destruct (negb (colon =? 58)); [done|].
    apply bind_ok in H as ([v1 r2] & Hv & H). simpl in H.
    apply IHs in Hv as [Hv _].
    destruct (Json.skip_ws r2) as [|c r3] eqn:E2; [done|].
    assert (r1 `suffix_of` s) as S1 by by eapply skip_ws_cons_suffix.
    assert (r2 `suffix_of` s) as S2.
    { etrans; [exact Hv|]. etrans; [apply skip_ws_suffix|done]. }
    destruct (c =? 125) eqn:Hc.
    + apply N.eqb_eq in Hc as ->. simplify_eq.
      by eapply skip_ws_cons_suffix'.
    + destruct (negb (c =? 44)); [done|].
      assert (r3 `suffix_of` s) as S3 by by eapply skip_ws_cons_suffix.
      destruct (Json.skip_ws r3) as [|c' r4] eqn:E3; [done|].
      destruct (c' =? 34); [|done].
      apply IHm in H. etrans; [exact H|]. by eapply skip_ws_cons_suffix.
  - intros acc s v rest H. simpl in H.
    apply bind_ok in H as ([v1 r1] & Hv & H). simpl in H.
    apply IHs in Hv as [Hv _].
    destruct (Json.skip_ws r1) as [|c r2] eqn:E1; [done|].
    assert (r2 `suffix_of` s) as S2 by by eapply skip_ws_cons_suffix.
    destruct (c =? 93).
    + by simplify_eq.
    + destruct (negb (c =? 44)); [done|].
      apply IHe in H as [H1 H2]. split; [|done].
      etrans; [exact H1|]. etrans; [apply skip_ws_suffix|done].
Qed.

Lemma loads_object_text (text : str) (d : gmap str value) :
  Json.loads text = Ok (VDict d) ->
  exists ws1 mid ws2,
    text = ws1 ++ 123 :: mid ++ 125 :: ws2 /\
    forallb Json.is_ws ws1 = true /\ forallb Json.is_ws ws2 = true.
Proof.
  unfold Json.loads. destruct (startswith text [65279]); [done|].
  intros H. apply bind_ok in H as ([v rest] & Hv & H). simpl in H.
  destruct (Json.skip_ws rest) eqn:E; [|done]. simplify_eq.
  apply scan_suffix in Hv as [_ Hshape].
  destruct (Hshape eq_refl) as [mid Hmid].
  destruct (skip_ws_split text) as (ws1 & Ht & Hws1).
  exists ws1, mid, rest. rewrite Hmid in Ht.
  split; [done|]. split; [done|by apply skip_ws_nil].
Qed.

Lemma loads_object_braced (text : str) (d : gmap str value) :
  Json.loads text = Ok (VDict d) -> exists body, braced text body.
Proof.
  intros (ws1 & mid & ws2 & -> & H1 & H2)%loads_object_text.
  exists (123 :: mid ++ [125]), ws1, mid, ws2.
  auto using forallb_is_ws_isspace.
Qed.

(** ** The fuel of the decoder is never exhausted *)

Lemma bind_raise {A B} (r : result A) (k : A -> result B) (e : exn) :
  bind r k = Raise e -> r = Raise e \/ exists a, r = Ok a /\ k a = Raise e.
Proof. intros H. destruct r; simpl in *; [right; eauto | left; by simplify_eq]. Qed.

Lemma scanstring_raises_bounded (n : nat) :
  forall (s acc : str) (e : exn),
    (length s <= n)%nat ->
    Json.scanstring s acc = Raise e -> e = JSONDecodeError.
Proof.
  induction n as [|n IH]; intros s acc e Hlen H.
  - destruct s; simpl in *; [by simplify_eq | lia].
  - destruct s as [|c r]; simpl in H; [by simplify_eq|].
    repeat (case_match; simplify_eq; try done);
      (eapply IH; [|eassumption]; simpl in *; lia).
Qed.

Lemma scanstring_raises (s acc : str) (e : exn) :
  Json.scanstring s acc = Raise e -> e = JSONDecodeError.
Proof. by apply (scanstring_raises_bounded (length s)). Qed.

Lemma scan_number_raises (s : str) (e : exn) (rest : str) :
  Json.scan_number s = Some (Raise e, rest) -> e = ValueError.
Proof.
  unfold Json.scan_number. intros H.
  repeat (case_match; simplify_eq); done.
Qed.

Lemma skip_ws_length (s : str) : (length (Json.skip_ws s) <= length s)%nat.
Proof. apply suffix_length, skip_ws_suffix. Qed.

Lemma skip_ws_cons_length (s : str) (c : N) (r : str) :
  Json.skip_ws s = c :: r -> (S (length r) <= length s)%nat.
Proof.
  intros H. pose proof (skip_ws_length s) as Hl. rewrite H in Hl. exact Hl.
Qed.

Lemma scan_fuel (fuel : nat) :
  (forall s, (2 * length s + 1 <= fuel)%nat ->
             Json.scan_once fuel s <> Raise RecursionError) /\
  (forall acc s, (2 * length s + 2 <= fuel)%nat ->
                 Json.members fuel acc s <> Raise RecursionError) /\
  (forall acc s, (2 * length s + 2 <= fuel)%nat ->
                 Json.elements fuel acc s <> Raise RecursionError).
Proof.
  induction fuel as [|fuel (IHs & IHm & IHe)]; [repeat split; intros; lia|].
  split; [|split].
  - intros s Hf H. cbn [Json.scan_once] in H.
    destruct s as [|c r]; [done|]. simpl in Hf.
    destruct (c =? 34).
    { apply bind_raise in H as [H | (a & _ & H)]; [|done].
      by apply scanstring_raises in H. }
    destruct (c =? 123).
    { destruct (Json.skip_ws r) as [|c' r'] eqn:Hr; [done|].
      apply skip_ws_cons_length in Hr.
      destruct (c' =? 125); [done|]. destruct (c' =? 34); [|done].
      apply IHm in H; [done|lia]. }
    destruct (c =? 91).
    { destruct (Json.skip_ws r) as [|c' r'] eqn:Hr; [done|].
      apply skip_ws_cons_length in Hr.
      destruct (c' =? 93); [done|].
      apply IHe in H; [done|simpl; lia]. }
    repeat (case_match; simplify_eq; try done).
    match goal with
    | H : Json.scan_number _ = _ |- _ => by apply scan_number_raises in H
    end.
  - intros acc s Hf H. simpl in H.
    apply bind_raise in H as [H | ([k r0] & Hk & H)];
      [by apply scanstring_raises in H|].
    simpl in H. apply scanstring_suffix, suffix_length in Hk.
    destruct (Json.skip_ws r0) as [|colon r1] eqn:E1; [done|].
    apply skip_ws_cons_length in E1.
    destruct (negb (colon =? 58)); [done|].
    pose proof (skip_ws_length r1) as L1.
    apply bind_raise in H as [H | ([v1 r2] & Hv & H)];
      [apply IHs in H; [done|lia]|].
    simpl in H. apply scan_suffix in Hv as [Hv%suffix_length _].
    destruct (Json.skip_ws r2) as [|c r3] eqn:E2; [done|].
    apply skip_ws_cons_length in E2.
    destruct (c =? 125); [done|]. destruct (negb (c =? 44)); [done|].
    destruct (Json.skip_ws r3) as [|c' r4] eqn:E3; [done|].
    apply skip_ws_cons_length in E3.
    destruct (c' =? 34); [|done].
    apply IHm in H; [done|lia].
  - intros acc s Hf H. simpl in H.
    apply bind_raise in H as [H | ([v1 r1] & Hv & H)];
      [apply IHs in H; [done|lia]|].
    simpl in H. apply scan_suffix in Hv as [Hv%suffix_length _].
    destruct (Json.skip_ws r1) as [|c r2] eqn:E1; [done|].
    apply skip_ws_cons_length in E1.
    destruct (c =? 93); [done|]. destruct (negb (c =? 44)); [done|].
    pose proof (skip_ws_length r2) as L2.
    apply IHe in H; [done|lia].
Qed.

(** [Json.loads] never reports an exhausted fuel: the bound it passes
    to [scan_once] always suffices. *)
Lemma loads_fuel_suffices (s : str) : Json.loads s <> Raise RecursionError.
Proof.
  unfold Json.loads. intros H.
  destruct (startswith s [65279]); [done|].
  pose proof (skip_ws_length s) as L.
  apply bind_raise in H as [H | ([v rest] & _ & H)].
  - apply scan_fuel in H; [done|lia].
  - simpl in H. by destruct (Json.skip_ws rest).
Qed.

(** ** Facts about [strip_code_fence] *)

Lemma strip_code_fence_braced (text body : str) :
  braced text body -> strip_code_fence text = body.
Proof.
  intros (ws1 & mid & ws2 & -> & -> & H1 & H2). unfold strip_code_fence.
  rewrite strip_delimited by done.
  change (startswith (123 :: mid ++ [125]) "```json") with false. cbv iota.
  change (startswith (123 :: mid ++ [125]) "```") with false. cbv iota.
  assert (endswith (123 :: mid ++ [125]) "```" = false) as ->
    by (by apply (endswith_last_ne (123 :: mid) 125 96 [96; 96])).
  by apply (strip_delimited [] [] mid 123 125).
Qed.




(** ** Facts about the tables and the constructor *)

Lemma mock_data_circuits : mock_data !!! ("circuits" : str) = mock_circuits.
Proof. vm_compute. reflexivity. Qed.

Lemma type_specific_unknown (experiment_type : str) :
  experiment_type ∉ prompt_domains -> type_specific !! experiment_type = None.
Proof.
  unfold prompt_domains, type_specific. intros H.
  rewrite !not_elem_of_cons in H. destruct H as (? & ? & ? & ? & _).
  by rewrite !lookup_insert_ne, lookup_empty.
Qed.

Lemma mock_data_unknown (experiment_type : str) :
  experiment_type ∉ fallback_domains -> mock_data !! experiment_type = None.
Proof.
  unfold fallback_domains, mock_data. intros H.
  rewrite !not_elem_of_cons in H. destruct H as (? & ? & ? & _).
  by rewrite !lookup_insert_ne, lookup_empty.
Qed.

Lemma mock_analysis_unknown (experiment_type : str) :
  experiment_type ∉ fallback_domains -> _mock_analysis experiment_type = mock_circuits.
Proof.
  intros H. unfold _mock_analysis. by rewrite mock_data_unknown, mock_data_circuits.
Qed.

Lemma mock_analysis_circuits : _mock_analysis "circuits" = mock_circuits.
Proof. vm_compute. reflexivity. Qed.

Lemma build_prompt_general :
  _build_analysis_prompt "general" = base_prompt ++ focus_general ++ json_format.
Proof. vm_compute. reflexivity. Qed.

Lemma mock_circuits_fields :
  getitem (_mock_analysis "circuits") "confidence_score" = Ok (VFloat 0.85) /\
  field_len (_mock_analysis "circuits") "components" = Ok 2%nat /\
  field_len (_mock_analysis "circuits") "safety_warnings" = Ok 2%nat /\
  field_len (_mock_analysis "circuits") "guidance" = Ok 7%nat.
Proof. repeat split; vm_compute; reflexivity. Qed.

Lemma mock_chemistry_fields :
  getitem (_mock_analysis "chemistry") "confidence_score" = Ok (VFloat 0.75) /\
  field_len (_mock_analysis "chemistry") "guidance" = Ok 5%nat.
Proof. repeat split; vm_compute; reflexivity. Qed.

Lemma init_without_credential (environ : gmap str str) :
  no_credential environ -> use_ai (__init__ environ) = false.
Proof.
  unfold no_credential, __init__, api_key_name. by intros [-> | ->].
Qed.

Lemma init_with_credential (environ : gmap str str) :
  has_credential environ -> use_ai (__init__ environ) = true.
Proof.
  unfold has_credential, __init__, api_key_name. intros (key & -> & Hkey).
  simpl. by destruct key.
Qed.

(** ** Facts about the response parser *)

Lemma set_if_missing_dict (d : gmap str value) (key : str) (v : value) :
  set_if_missing (VDict d) key v = Ok (VDict (d ∪ {[ key := v ]})).
Proof.
  unfold set_if_missing. simpl. case_bool_decide as Hk; simpl; do 2 f_equal.
  - apply map_eq. intros k. rewrite lookup_union. destruct Hk as [x Hx].
    destruct (decide (key = k)) as [<- | Hne].
    + by rewrite Hx, lookup_singleton_eq.
    + rewrite lookup_singleton_ne by done. by destruct (d !! k).
  - apply insert_union_singleton_r. by apply eq_None_not_Some.
Qed.

Lemma optional_defaults_unions :
  ({[ ("safety_warnings" : str) := VList [] ]} ∪
     ({[ ("guidance" : str) := VList [] ]} ∪ {[ ("confidence_score" : str) := VFloat 0.8 ]})
   : gmap str value) = optional_defaults.
Proof. vm_compute. reflexivity. Qed.

Lemma optional_defaults_lookup (k : str) :
  optional_defaults !! k =
    if decide (k = "confidence_score") then Some (VFloat 0.8)
    else if decide (k = "guidance") then Some (VList [])
    else if decide (k = "safety_warnings") then Some (VList [])
    else None.
Proof.
  unfold optional_defaults.
  repeat (case_decide; [subst; by rewrite ?lookup_insert_eq
                       | rewrite lookup_insert_ne by done]).
  apply lookup_empty.
Qed.

Section ParserFacts.

Variable json_loads : str -> result value.

Lemma parse_try_dict (response_text : str) (d : gmap str value) :
  json_loads (strip_code_fence response_text) = Ok (VDict d) ->
  _parse_ai_response_try json_loads response_text = Ok (VDict (d ∪ optional_defaults)).
Proof.
  intros H. unfold _parse_ai_response_try. rewrite H. simpl.
  rewrite !set_if_missing_dict. simpl. rewrite !set_if_missing_dict. simpl.
  rewrite set_if_missing_dict.
  by rewrite <- !(assoc_L (∪)), optional_defaults_unions.
Qed.

Lemma parse_try_decode_error (response_text : str) (e : exn) :
  json_loads (strip_code_fence response_text) = Raise e ->
  _parse_ai_response_try json_loads response_text = Raise e.
Proof. intros H. unfold _parse_ai_response_try. by rewrite H. Qed.

(** The parser reads a response only through [strip_code_fence]. *)
Lemma parse_same_stripped (text1 text2 experiment_type : str) :
  strip_code_fence text1 = strip_code_fence text2 ->
  _parse_ai_response json_loads text1 experiment_type
  = _parse_ai_response json_loads text2 experiment_type.
Proof.
  intros H. unfold _parse_ai_response, _parse_ai_response_try. by rewrite H.
Qed.


(** A decoded list that lacks one of the optional keys among its
    elements makes the defaulting step raise [TypeError], which the
    parser's handler lets through. *)
Lemma parse_list_raises (response_text experiment_type : str) (l : list value) :
  json_loads (strip_code_fence response_text) = Ok (VList l) ->
  existsb (fun v => eq_str v "safety_warnings") l = false ->
  _parse_ai_response json_loads response_text experiment_type = Raise TypeError.
Proof.
  intros H Hl. unfold _parse_ai_response, _parse_ai_response_try.
  rewrite H. simpl.
  assert (set_if_missing (VList l) "safety_warnings" (VList []) = Raise TypeError) as ->
    by (unfold set_if_missing; simpl; by rewrite Hl).
  done.
Qed.

End ParserFacts.

(** ** The orchestrator *)

Section OrchestratorFacts.

Variable json_loads : str -> result value.
Variable b64decode : str -> result bytes.
Variable generate_content : str -> bytes -> result str.


(** [_analyze_with_ai] never raises: its handler catches everything. *)
Lemma analyze_with_ai_returns (image_data experiment_type : str) :
  exists r,
    _analyze_with_ai json_loads b64decode generate_content image_data experiment_type
    = Ok r.
Proof.
  unfold _analyze_with_ai.
  destruct (_analyze_with_ai_try _ _ _ _ _); eauto.
Qed.

(** Whatever is raised inside the [try] is replaced by the canned analysis. *)
Lemma analyze_with_ai_absorbs (image_data experiment_type : str) (e : exn) :
  _analyze_with_ai_try json_loads b64decode generate_content image_data experiment_type
  = Raise e ->
  _analyze_with_ai json_loads b64decode generate_content image_data experiment_type
  = Ok (_mock_analysis experiment_type).
Proof. intros H. unfold _analyze_with_ai. by rewrite H. Qed.

(** [analyze_image] never raises. *)
Lemma analyze_image_returns (self : ExperimentAnalyzer) (image_data experiment_type : str) :
  exists r,
    analyze_image json_loads b64decode generate_content self image_data experiment_type
    = Ok r.
Proof.
  unfold analyze_image. destruct (use_ai self); [apply analyze_with_ai_returns|eauto].
Qed.

(** When the [try] body can only end by raising or by returning the
    canned analysis, so does the method. *)
Lemma analyze_with_ai_mock (image_data experiment_type : str) :
  (forall r, _analyze_with_ai_try json_loads b64decode generate_content
               image_data experiment_type = Ok r ->
             r = _mock_analysis experiment_type) ->
  _analyze_with_ai json_loads b64decode generate_content image_data experiment_type
  = Ok (_mock_analysis experiment_type).
Proof.
  intros H. unfold _analyze_with_ai.
  destruct (_analyze_with_ai_try _ _ _ _ _) as [r|e] eqn:E; [|done].
  by rewrite (H r).
Qed.

Lemma analyze_try_model_failure (image_data experiment_type : str) :
  (forall prompt image, exists e, generate_content prompt image = Raise e) ->
  forall r, _analyze_with_ai_try json_loads b64decode generate_content
              image_data experiment_type <> Ok r.
Proof.
  intros Hfail r. unfold _analyze_with_ai_try.
  destruct (if startswith image_data "data:image" then _ else _) as [payload|]; [|done].
  simpl. destruct (b64decode payload) as [image|]; [|done]. simpl.
  destruct (Hfail (_build_analysis_prompt experiment_type) image) as [e ->]. done.
Qed.

Lemma analyze_try_fixed_answer (text image_data experiment_type : str) (r : value) :
  (forall prompt image, generate_content prompt image = Ok text) ->
  _analyze_with_ai_try json_loads b64decode generate_content image_data experiment_type
  = Ok r ->
  _parse_ai_response json_loads text experiment_type = Ok r.
Proof.
  intros Hans. unfold _analyze_with_ai_try.
  destruct (if startswith image_data "data:image" then _ else _) as [payload|]; [|done].
  simpl. destruct (b64decode payload) as [image|]; [|done]. simpl.
  rewrite Hans. simpl.
  by destruct (_parse_ai_response json_loads text experiment_type).
Qed.

End OrchestratorFacts.

(** ** The library models at concrete inputs *)

Example loads_array : Json.loads array_text = Ok (VList [VInt 1; VInt 2]).
Proof. vm_compute. reflexivity. Qed.

Example loads_object : Json.loads partial_response_text = Ok (VDict partial_response).
Proof. vm_compute. reflexivity. Qed.

Example loads_number : Json.loads "8.5e-1" = Ok (VFloat 0.85).
Proof. vm_compute. reflexivity. Qed.

Example loads_prose : Json.loads not_json_text = Raise JSONDecodeError.
Proof. vm_compute. reflexivity. Qed.

Example loads_trailing_text : Json.loads "{} and more" = Raise JSONDecodeError.
Proof. vm_compute. reflexivity. Qed.

Example b64decode_jpeg_header :
  Base64.b64decode "/9j/4AAQ"
  = Ok [Byte.xff; Byte.xd8; Byte.xff; Byte.xe0; Byte.x00; Byte.x10].
Proof. vm_compute. reflexivity. Qed.

Example b64decode_bad_padding : Base64.b64decode "abc" = Raise BinasciiError.
Proof. vm_compute. reflexivity. Qed.

Example data_url_payload :
  split 44 "data:image/jpeg;base64,/9j/4AAQ" !! 1%nat = Some ("/9j/4AAQ" : str).
Proof. vm_compute. reflexivity. Qed.

Example strip_code_fence_json :
  strip_code_fence (code_fence "json" empty_object_text) = empty_object_text.
Proof. vm_compute. reflexivity. Qed.

Example strip_code_fence_javascript :
  strip_code_fence (code_fence "javascript" empty_object_text)
  = ("javascript" : str) ++ [10] ++ empty_object_text.
Proof. vm_compute. reflexivity. Qed.

(** * The claims *)

(** C1 at a backend answer that is a JSON array holding the three
    optional keys: every membership test succeeds on the list, nothing
    is assigned, and [analyze_image] returns the list itself, which is
    not a dictionary. *)
Theorem analyze_image_returns_keys_array :
  Json.loads keys_array_text
  = Ok (VList [VStr "safety_warnings"; VStr "guidance"; VStr "confidence_score"]) /\
  analyze_image Json.loads Base64.b64decode (backend_answering keys_array_text)
                (__init__ environ_with_key) "/9j/4AAQ" "circuits"
  = Ok (VList [VStr "safety_warnings"; VStr "guidance"; VStr "confidence_score"]) /\
  is_dict (VList [VStr "safety_warnings"; VStr "guidance"; VStr "confidence_score"]) = false.
Proof. repeat split; vm_compute; reflexivity. Qed.

(** C2: with no model credential configured, [analyze_image] on any
    image data and the domain circuits returns a result whose
    confidence score is 0.85 and whose components, safety warnings and
    guidance have 2, 2 and 7 entries. *)
Theorem mock_mode_circuits
        (json_loads : str -> result value) (b64decode : str -> result bytes)
        (generate_content : str -> bytes -> result str)
        (environ : gmap str str) (image_data : str) :
  no_credential environ ->
  exists r,
    analyze_image json_loads b64decode generate_content (__init__ environ)
                  image_data "circuits" = Ok r /\
    getitem r "confidence_score" = Ok (VFloat 0.85) /\
    field_len r "components" = Ok 2%nat /\
    field_len r "safety_warnings" = Ok 2%nat /\
    field_len r "guidance" = Ok 7%nat.
Proof.
  intros Hcred. exists (_mock_analysis "circuits"). split.
  - unfold analyze_image. by rewrite init_without_credential.
  - apply mock_circuits_fields.
Qed.

Lemma mock_mode_circuits_witness :
  exists r,
    analyze_image Json.loads Base64.b64decode backend_failing
                  (__init__ environ_without_key) "anything" "circuits" = Ok r /\
    getitem r "confidence_score" = Ok (VFloat 0.85) /\
    field_len r "components" = Ok 2%nat /\
    field_len r "safety_warnings" = Ok 2%nat /\
    field_len r "guidance" = Ok 7%nat.
Proof. apply mock_mode_circuits. left. reflexivity. Defined.

(** C3: when the text handed to the decoder yields a JSON object, the
    parser returns that object with each missing optional key set to
    its default (an empty list for the safety warnings, an empty list
    for the guidance, 0.8 for the confidence score); every field of
    the input keeps its value and no other key is added. *)
Theorem parse_defaults_missing_keys
        (json_loads : str -> result value) (response_text experiment_type : str)
        (d : gmap str value) :
  json_loads (strip_code_fence response_text) = Ok (VDict d) ->
  exists d' : gmap str value,
    _parse_ai_response json_loads response_text experiment_type = Ok (VDict d') /\
    (forall k v, d !! k = Some v -> d' !! k = Some v) /\
    (d !! ("safety_warnings" : str) = None ->
     d' !! ("safety_warnings" : str) = Some (VList [])) /\
    (d !! ("guidance" : str) = None -> d' !! ("guidance" : str) = Some (VList [])) /\
    (d !! ("confidence_score" : str) = None ->
     d' !! ("confidence_score" : str) = Some (VFloat 0.8)) /\
    (forall k, d !! k = None -> optional_defaults !! k = None -> d' !! k = None).
Proof.
  intros H. exists (d ∪ optional_defaults). split.
  { unfold _parse_ai_response. by rewrite (parse_try_dict _ _ _ H). }
  repeat split.
  - intros k v Hk. by rewrite lookup_union, Hk, union_Some_l.
  - intros Hk. by rewrite lookup_union, Hk.
  - intros Hk. by rewrite lookup_union, Hk.
  - intros Hk. by rewrite lookup_union, Hk.
  - intros k Hk Hd. by rewrite lookup_union, Hk, Hd.
Qed.

Lemma parse_defaults_missing_keys_witness :
  exists d' : gmap str value,
    _parse_ai_response Json.loads partial_response_text "circuits" = Ok (VDict d') /\
    (forall k v, partial_response !! k = Some v -> d' !! k = Some v) /\
    (partial_response !! ("safety_warnings" : str) = None ->
     d' !! ("safety_warnings" : str) = Some (VList [])) /\
    (partial_response !! ("guidance" : str) = None ->
     d' !! ("guidance" : str) = Some (VList [])) /\
    (partial_response !! ("confidence_score" : str) = None ->
     d' !! ("confidence_score" : str) = Some (VFloat 0.8)) /\
    (forall k, partial_response !! k = None -> optional_defaults !! k = None ->
               d' !! k = None).
Proof.
  apply parse_defaults_missing_keys. vm_compute. reflexivity.
Defined.







(** C6: for every string that is not a key of the prompt table
    (circuits, chemistry, physics, general) the prompt is the one built
    for general; for every string that is not a key of the canned
    analyses (circuits, chemistry, physics) the canned analysis is the
    one of circuits, in particular for general and for unknown-domain. *)
Theorem unknown_domain_defaults (experiment_type : str) :
  (experiment_type ∉ prompt_domains ->
   _build_analysis_prompt experiment_type = _build_analysis_prompt "general") /\
  (experiment_type ∉ fallback_domains ->
   _mock_analysis experiment_type = _mock_analysis "circuits") /\
  _mock_analysis "general" = _mock_analysis "circuits" /\
  _mock_analysis "unknown-domain" = _mock_analysis "circuits".
Proof.
  split; [|split; [|split]].
  - intros H. rewrite build_prompt_general. unfold _build_analysis_prompt.
    rewrite type_specific_unknown by done. vm_compute. reflexivity.
  - intros H. by rewrite mock_analysis_circuits, mock_analysis_unknown.
  - vm_compute. reflexivity.
  - vm_compute. reflexivity.
Qed.

Lemma unknown_domain_defaults_witness :
  _build_analysis_prompt "unknown-domain" = _build_analysis_prompt "general" /\
  _mock_analysis "unknown-domain" = _mock_analysis "circuits".
Proof.
  destruct (unknown_domain_defaults "unknown-domain") as (Hp & Hm & _).
  split; [apply Hp | apply Hm]; apply (bool_decide_unpack _); vm_compute; exact I.
Defined.

(** C7: for each of circuits, chemistry and physics the canned analysis
    has a confidence score between 0 and 1, only severities of the
    enumeration (low, medium, high, critical), and guidance steps
    numbered 1, 2, ..., N in order. *)
Theorem fallback_results_valid (domain : str) :
  domain ∈ fallback_domains ->
  exists (c : float) (severities : list str) (steps : list Z),
    confidence_of (_mock_analysis domain) = Some c /\
    (0 <=? c)%float = true /\ (c <=? 1)%float = true /\
    severities_of (_mock_analysis domain) = Some severities /\
    Forall (fun s => s ∈ severity_levels) severities /\
    steps_of (_mock_analysis domain) = Some steps /\
    steps = one_to (length steps).
Proof.
  unfold fallback_domains. rewrite !elem_of_cons, elem_of_nil.
  intros [-> | [-> | [-> | []]]].
  - exists 0.85%float, [("high" : str); ("medium" : str)], (one_to 7).
    repeat split; try (vm_compute; reflexivity).
    apply (bool_decide_unpack _). vm_compute. exact I.
  - exists 0.75%float, [("high" : str); ("medium" : str)], (one_to 5).
    repeat split; try (vm_compute; reflexivity).
    apply (bool_decide_unpack _). vm_compute. exact I.
  - exists 0.8%float, [("low" : str)], (one_to 5).
    repeat split; try (vm_compute; reflexivity).
    apply (bool_decide_unpack _). vm_compute. exact I.
Qed.

Lemma fallback_results_valid_witness :
  exists (c : float) (severities : list str) (steps : list Z),
    confidence_of (_mock_analysis "physics") = Some c /\
    (0 <=? c)%float = true /\ (c <=? 1)%float = true /\
    severities_of (_mock_analysis "physics") = Some severities /\
    Forall (fun s => s ∈ severity_levels) severities /\
    steps_of (_mock_analysis "physics") = Some steps /\
    steps = one_to (length steps).
Proof.
  apply fallback_results_valid. apply (bool_decide_unpack _). vm_compute. exact I.
Defined.

(** C8: with a credential configured and a backend that fails on every
    call, [analyze_image] for the domain chemistry returns a result
    whose confidence score is 0.75 and whose guidance has 5 steps. *)
Theorem failing_model_chemistry
        (json_loads : str -> result value) (b64decode : str -> result bytes)
        (generate_content : str -> bytes -> result str)
        (environ : gmap str str) (image_data : str) :
  has_credential environ ->
  (forall prompt image, exists e, generate_content prompt image = Raise e) ->
  exists r,
    analyze_image json_loads b64decode generate_content (__init__ environ)
                  image_data "chemistry" = Ok r /\
    r = _mock_analysis "chemistry" /\
    getitem r "confidence_score" = Ok (VFloat 0.75) /\
    field_len r "guidance" = Ok 5%nat.
Proof.
  intros Hcred Hfail. exists (_mock_analysis "chemistry"). split; [|split; [done|]].
  - unfold analyze_image. rewrite init_with_credential by done.
    apply analyze_with_ai_mock. intros r Hr.
    by apply analyze_try_model_failure in Hr.
  - apply mock_chemistry_fields.
Qed.

Lemma failing_model_chemistry_witness :
  exists r,
    analyze_image Json.loads Base64.b64decode backend_failing
                  (__init__ environ_with_key) "/9j/4AAQ" "chemistry" = Ok r /\
    r = _mock_analysis "chemistry" /\
    getitem r "confidence_score" = Ok (VFloat 0.75) /\
    field_len r "guidance" = Ok 5%nat.
Proof.
  apply failing_model_chemistry.
  - exists ("secret" : str). split; [reflexivity | discriminate].
  - intros prompt image. exists (ModelError "quota exceeded"). reflexivity.
Defined.

(** C9: there is a text, the array [1, 2], that decodes as JSON to a
    value that is not an object and on which the parser neither returns
    a result nor takes its fallback path: the defaulting of the first
    optional key raises [TypeError], and the method ends by raising it. *)
Theorem parse_non_object_raises :
  exists (text : str) (v : value),
    text = array_text /\
    Json.loads (strip_code_fence text) = Ok v /\
    is_dict v = false /\
    set_if_missing v "safety_warnings" (VList []) = Raise TypeError /\
    forall experiment_type,
      _parse_ai_response Json.loads text experiment_type = Raise TypeError /\
      _parse_ai_response Json.loads text experiment_type
      <> Ok (_mock_analysis experiment_type).
Proof.
  exists array_text, (VList [VInt 1; VInt 2]).
  assert (Json.loads (strip_code_fence array_text) = Ok (VList [VInt 1; VInt 2])) as E
    by (vm_compute; reflexivity).
  split; [reflexivity|]. split; [exact E|].
  split; [reflexivity|]. split; [reflexivity|].
  intros experiment_type.
  rewrite (parse_list_raises _ _ experiment_type _ E) by reflexivity.
  split; [reflexivity|discriminate].
Qed.

(** C10: with no model credential configured, the result of
    [analyze_image] does not depend on the image data. *)
Theorem mock_mode_ignores_image
        (json_loads : str -> result value) (b64decode : str -> result bytes)
        (generate_content : str -> bytes -> result str)
        (environ : gmap str str) (experiment_type image_data1 image_data2 : str) :
  no_credential environ ->
  analyze_image json_loads b64decode generate_content (__init__ environ)
                image_data1 experiment_type
  = analyze_image json_loads b64decode generate_content (__init__ environ)
                  image_data2 experiment_type.
Proof.
  intros Hcred. unfold analyze_image. by rewrite init_without_credential.
Qed.

Lemma mock_mode_ignores_image_witness :
  analyze_image Json.loads Base64.b64decode backend_failing
                (__init__ environ_without_key) "anything" "physics"
  = analyze_image Json.loads Base64.b64decode backend_failing
                  (__init__ environ_without_key) "data:image/jpeg;base64,/9j/4AAQ" "physics".
Proof. apply mock_mode_ignores_image. left. reflexivity. Defined.

(** * Further properties *)

(** ** The analyzer *)

Lemma startswith_app_l (s t p : str) :
  startswith s p = true -> startswith (s ++ t) p = true.
Proof.
  revert s. induction p as [|x p IH]; intros s H; [done|].
  destruct s as [|c s]; simpl in *; [done|].
  apply andb_prop in H as [-> H]. simpl. by apply IH.
Qed.

Lemma split_no_sep (sep : N) (s : str) : sep ∉ s -> split sep s = [s].
Proof.
  induction s as [|c s IH]; [done|].
  intros [Hc Hs]%not_elem_of_cons. simpl.
  destruct (N.eqb_spec c sep) as [->|_]; [done|]. by rewrite IH.
Qed.

Lemma split_at_first_sep (sep : N) (s rest : str) :
  sep ∉ s -> split sep (s ++ sep :: rest) = s :: split sep rest.
Proof.
  induction s as [|c s IH]; simpl.
  - intros _. by rewrite N.eqb_refl.
  - intros [Hc Hs]%not_elem_of_cons.
    destruct (N.eqb_spec c sep) as [->|_]; [done|]. by rewrite IH.
Qed.

Lemma split_second_field (meta payload tail : str) :
  44 ∉ meta -> 44 ∉ payload ->
  tail = [] \/ (exists junk, tail = 44 :: junk) ->
  split 44 (meta ++ 44 :: payload ++ tail) !! 1%nat = Some payload.
Proof.
  intros Hm Hp Ht. rewrite split_at_first_sep by done.
  destruct Ht as [-> | [junk ->]].
  - by rewrite app_nil_r, split_no_sep.
  - by rewrite split_at_first_sep.
Qed.

Lemma mock_analysis_cases (experiment_type : str) :
  _mock_analysis experiment_type = mock_circuits \/
  _mock_analysis experiment_type = mock_chemistry \/
  _mock_analysis experiment_type = mock_physics.
Proof.
  destruct (decide (experiment_type ∈ fallback_domains)) as [Hin | Hout].
  - unfold fallback_domains in Hin. rewrite !elem_of_cons, elem_of_nil in Hin.
    destruct Hin as [-> | [-> | [-> | []]]];
      [left | right; left | right; right]; vm_compute; reflexivity.
  - left. by apply mock_analysis_unknown.
Qed.

Lemma mock_has_optional_keys (experiment_type : str) :
  has_optional_keys (_mock_analysis experiment_type) = true.
Proof.
  destruct (mock_analysis_cases experiment_type) as [-> | [-> | ->]];
    vm_compute; reflexivity.
Qed.

Lemma set_if_missing_non_dict (v v' : value) (key : str) (x : value) :
  is_dict v = false -> set_if_missing v key x = Ok v' -> v' = v /\ has_key v key = true.
Proof.
  intros Hv. unfold set_if_missing, has_key.
  destruct v; try done; simpl; intros H;
    repeat case_match; by simplify_eq.
Qed.

Lemma set_if_missing_non_dict_raises (v : value) (key : str) (x : value) (e : exn) :
  is_dict v = false -> set_if_missing v key x = Raise e ->
  e = TypeError /\ has_key v key = false.
Proof.
  intros Hv. unfold set_if_missing, has_key.
  destruct v; try done; simpl; intros H;
    repeat case_match; by simplify_eq.
Qed.

Section AnalyzerMore.

Variable json_loads : str -> result value.
Variable b64decode : str -> result bytes.
Variable generate_content : str -> bytes -> result str.

Lemma parse_try_non_dict (response_text : str) (v : value) :
  json_loads (strip_code_fence response_text) = Ok v ->
  is_dict v = false ->
  _parse_ai_response_try json_loads response_text
  = if has_optional_keys v then Ok v else Raise TypeError.
Proof.
  intros H Hv. unfold _parse_ai_response_try, has_optional_keys. rewrite H. simpl.
  destruct (set_if_missing v "safety_warnings" (VList [])) as [v1|e1] eqn:E1.
  - apply set_if_missing_non_dict in E1 as [-> ->]; [|done]. simpl.
    destruct (set_if_missing v "guidance" (VList [])) as [v2|e2] eqn:E2.
    + apply set_if_missing_non_dict in E2 as [-> ->]; [|done]. simpl.
      destruct (set_if_missing v "confidence_score" (VFloat 0.8)) as [v3|e3] eqn:E3.
      * by apply set_if_missing_non_dict in E3 as [-> ->].
      * by apply set_if_missing_non_dict_raises in E3 as [-> ->].
    + by apply set_if_missing_non_dict_raises in E2 as [-> ->].
  - by apply set_if_missing_non_dict_raises in E1 as [-> ->].
Qed.

Lemma parse_try_dict_keys (response_text : str) (d : gmap str value) :
  _parse_ai_response_try json_loads response_text = Ok (VDict d) ->
  has_optional_keys (VDict d) = true.
Proof.
  intros H.
  destruct (json_loads (strip_code_fence response_text)) as [v|e] eqn:E.
  - destruct (is_dict v) eqn:Hv.
    + destruct v; try done. rewrite (parse_try_dict _ _ _ E) in H. simplify_eq.
      unfold has_optional_keys, has_key. simpl.
      rewrite !bool_decide_eq_true_2; [done| | |];
        rewrite lookup_union; destruct (_ !! _); done.
    + rewrite (parse_try_non_dict _ _ E Hv) in H.
      destruct (has_optional_keys v); by simplify_eq.
  - by rewrite (parse_try_decode_error _ _ _ E) in H.
Qed.

Lemma analyze_try_origin (image_data experiment_type : str) (r : value) :
  _analyze_with_ai_try json_loads b64decode generate_content image_data experiment_type
  = Ok r ->
  exists image_bytes text,
    generate_content (_build_analysis_prompt experiment_type) image_bytes = Ok text /\
    _parse_ai_response json_loads text experiment_type = Ok r.
Proof.
  unfold _analyze_with_ai_try.
  destruct (if startswith image_data "data:image" then _ else _) as [payload|]; [|done].
  simpl. destruct (b64decode payload) as [image|]; [|done]. simpl.
  destruct (generate_content _ image) as [text|] eqn:E; [|done]. simpl.
  destruct (_parse_ai_response json_loads text experiment_type) eqn:P; [|done].
  simpl. intros [= <-]. eauto.
Qed.

End AnalyzerMore.

(** X1: [analyze_image] never raises, and what it returns is either
    the canned analysis of the requested type or the value the parser
    made of a text the backend gave for the prompt of that type. *)
Theorem analyze_image_result_origin
        (json_loads : str -> result value) (b64decode : str -> result bytes)
        (generate_content : str -> bytes -> result str)
        (self : ExperimentAnalyzer) (image_data experiment_type : str) :
  exists r,
    analyze_image json_loads b64decode generate_content self image_data experiment_type
    = Ok r /\
    (r = _mock_analysis experiment_type \/
     exists image_bytes text,
       generate_content (_build_analysis_prompt experiment_type) image_bytes = Ok text /\
       _parse_ai_response_try json_loads text = Ok r).
Proof.
  unfold analyze_image. destruct (use_ai self); [|eauto].
  unfold _analyze_with_ai.
  destruct (_analyze_with_ai_try _ _ _ _ _) as [r|e] eqn:E; [|eauto].
  exists r. split; [done|].
  apply analyze_try_origin in E as (image_bytes & text & Hgen & Hparse).
  unfold _parse_ai_response in Hparse.
  destruct (_parse_ai_response_try json_loads text) as [a|[]] eqn:P; simplify_eq; eauto.
Qed.

(** X2: the model path end to end.  With a credential configured, an
    image string that is not a data URL and decodes from base64, a
    backend that answers the prompt of the requested type with a text,
    and a text that decodes to a JSON object, [analyze_image] returns
    that object completed with the defaults of the optional keys. *)
Theorem analyze_image_model_path
        (json_loads : str -> result value) (b64decode : str -> result bytes)
        (generate_content : str -> bytes -> result str)
        (self : ExperimentAnalyzer) (image_data experiment_type text : str)
        (image_bytes : bytes) (d : gmap str value) :
  use_ai self = true ->
  startswith image_data "data:image" = false ->
  b64decode image_data = Ok image_bytes ->
  generate_content (_build_analysis_prompt experiment_type) image_bytes = Ok text ->
  json_loads (strip_code_fence text) = Ok (VDict d) ->
  analyze_image json_loads b64decode generate_content self image_data experiment_type
  = Ok (VDict (d ∪ optional_defaults)).
Proof.
  intros Hai Hurl Hb64 Hgen Hdec.
  unfold analyze_image, _analyze_with_ai, _analyze_with_ai_try.
  rewrite Hai, Hurl. simpl. rewrite Hb64. simpl. rewrite Hgen. simpl.
  unfold _parse_ai_response. by rewrite (parse_try_dict _ _ _ Hdec).
Qed.

Lemma analyze_image_model_path_witness :
  analyze_image Json.loads Base64.b64decode (backend_answering partial_response_text)
                (__init__ environ_with_key) "/9j/4AAQ" "circuits"
  = Ok (VDict (partial_response ∪ optional_defaults)).
Proof.
  apply (analyze_image_model_path _ _ _ _ _ _ partial_response_text
           [Byte.xff; Byte.xd8; Byte.xff; Byte.xe0; Byte.x00; Byte.x10]);
    vm_compute; reflexivity.
Defined.

(** X3: a data URL is analysed like its payload.  When the image
    string starts with data:image, its text up to the first comma and
    the payload after it hold no further comma, and the payload is not
    itself a data URL, [_analyze_with_ai] gives the same result as on
    the bare payload; whatever follows a second comma is ignored. *)
Theorem data_url_analysed_as_payload
        (json_loads : str -> result value) (b64decode : str -> result bytes)
        (generate_content : str -> bytes -> result str)
        (meta payload tail experiment_type : str) :
  startswith meta "data:image" = true ->
  44 ∉ meta -> 44 ∉ payload ->
  startswith payload "data:image" = false ->
  tail = [] \/ (exists junk, tail = 44 :: junk) ->
  _analyze_with_ai json_loads b64decode generate_content
                   (meta ++ 44 :: payload ++ tail) experiment_type
  = _analyze_with_ai json_loads b64decode generate_content payload experiment_type.
Proof.
  intros Hmeta Hm Hp Hpay Ht. unfold _analyze_with_ai, _analyze_with_ai_try.
  rewrite (startswith_app_l meta _ _ Hmeta), Hpay.
  by rewrite split_second_field.
Qed.

Lemma data_url_analysed_as_payload_witness :
  _analyze_with_ai Json.loads Base64.b64decode (backend_answering partial_response_text)
                   (("data:image/jpeg;base64" : str) ++ 44 :: ("/9j/4AAQ" : str) ++ [])
                   "circuits"
  = _analyze_with_ai Json.loads Base64.b64decode (backend_answering partial_response_text)
                     "/9j/4AAQ" "circuits".
Proof.
  apply data_url_analysed_as_payload.
  - reflexivity.
  - apply (bool_decide_unpack _). vm_compute. exact I.
  - apply (bool_decide_unpack _). vm_compute. exact I.
  - reflexivity.
  - left. reflexivity.
Defined.

(** X4: an image string that starts with data:image and holds no
    comma makes [_analyze_with_ai] return the canned analysis, whatever
    the backend would answer: the payload is missing. *)
Theorem data_url_without_comma_falls_back
        (json_loads : str -> result value) (b64decode : str -> result bytes)
        (generate_content : str -> bytes -> result str)
        (image_data experiment_type : str) :
  startswith image_data "data:image" = true ->
  44 ∉ image_data ->
  _analyze_with_ai json_loads b64decode generate_content image_data experiment_type
  = Ok (_mock_analysis experiment_type).
Proof.
  intros Hurl Hc. unfold _analyze_with_ai, _analyze_with_ai_try.
  by rewrite Hurl, split_no_sep.
Qed.

Lemma data_url_without_comma_falls_back_witness :
  _analyze_with_ai Json.loads Base64.b64decode (backend_answering partial_response_text)
                   "data:image/jpeg;base64" "physics"
  = Ok (_mock_analysis "physics").
Proof.
  apply data_url_without_comma_falls_back.
  - reflexivity.
  - apply (bool_decide_unpack _). vm_compute. exact I.
Defined.

(** X5: every dictionary [analyze_image] returns holds the keys
    safety_warnings, guidance and confidence_score. *)
Theorem analyze_image_dict_has_optional_keys
        (json_loads : str -> result value) (b64decode : str -> result bytes)
        (generate_content : str -> bytes -> result str)
        (self : ExperimentAnalyzer) (image_data experiment_type : str)
        (d : gmap str value) :
  analyze_image json_loads b64decode generate_content self image_data experiment_type
  = Ok (VDict d) ->
  is_Some (d !! ("safety_warnings" : str)) /\
  is_Some (d !! ("guidance" : str)) /\
  is_Some (d !! ("confidence_score" : str)).
Proof.
  intros H.
  assert (has_optional_keys (VDict d) = true) as Hk.
  { unfold analyze_image in H.
    destruct (use_ai self);
      [|injection H as <-; apply mock_has_optional_keys].
    unfold _analyze_with_ai in H.
    destruct (_analyze_with_ai_try _ _ _ _ _) as [r|e] eqn:E;
      [|injection H as <-; apply mock_has_optional_keys].
    injection H as ->.
    apply analyze_try_origin in E as (image_bytes & text & _ & Hparse).
    unfold _parse_ai_response in Hparse.
    destruct (_parse_ai_response_try json_loads text) as [a|[]] eqn:P;
      try discriminate; injection Hparse as Hparse.
    - subst a. by apply (parse_try_dict_keys json_loads text).
    - rewrite <- Hparse. apply mock_has_optional_keys. }
  unfold has_optional_keys, has_key in Hk. simpl in Hk.
  apply andb_prop in Hk as [[H1 H2]%andb_prop H3].
  by apply bool_decide_eq_true in H1, H2, H3.
Qed.

Lemma analyze_image_dict_has_optional_keys_witness :
  is_Some ((partial_response ∪ optional_defaults) !! ("safety_warnings" : str)) /\
  is_Some ((partial_response ∪ optional_defaults) !! ("guidance" : str)) /\
  is_Some ((partial_response ∪ optional_defaults) !! ("confidence_score" : str)).
Proof.
  apply (analyze_image_dict_has_optional_keys
           Json.loads Base64.b64decode (backend_answering partial_response_text)
           (__init__ environ_with_key) "/9j/4AAQ" "circuits").
  vm_compute. reflexivity.
Defined.

(** X6: when the text decodes to a JSON value that is not an object,
    the parser returns that value unchanged if it holds the three
    optional keys (as elements of an array, as substrings of a string)
    and raises [TypeError] otherwise; numbers, booleans and null hold
    no key. *)
Theorem parse_non_object_characterised
        (json_loads : str -> result value) (response_text experiment_type : str)
        (v : value) :
  json_loads (strip_code_fence response_text) = Ok v ->
  is_dict v = false ->
  _parse_ai_response json_loads response_text experiment_type
  = if has_optional_keys v then Ok v else Raise TypeError.
Proof.
  intros H Hv. unfold _parse_ai_response.
  rewrite (parse_try_non_dict _ _ _ H Hv). by destruct (has_optional_keys v).
Qed.

Lemma parse_non_object_characterised_witness :
  _parse_ai_response Json.loads "3.5" "physics"
  = if has_optional_keys (VFloat 3.5) then Ok (VFloat 3.5) else Raise TypeError.
Proof.
  apply parse_non_object_characterised; vm_compute; reflexivity.
Defined.

(** X8: an exception of the decoder other than [JSONDecodeError]
    leaves the parser, and [analyze_image] replaces it by the canned
    analysis. *)
Theorem other_decoder_errors_pass_the_parser
        (json_loads : str -> result value) (b64decode : str -> result bytes)
        (generate_content : str -> bytes -> result str)
        (self : ExperimentAnalyzer) (text image_data experiment_type : str) (e : exn) :
  json_loads (strip_code_fence text) = Raise e ->
  e <> JSONDecodeError ->
  (forall prompt image, generate_content prompt image = Ok text) ->
  _parse_ai_response json_loads text experiment_type = Raise e /\
  analyze_image json_loads b64decode generate_content self image_data experiment_type
  = Ok (_mock_analysis experiment_type).
Proof.
  intros Hdec Hne Hans.
  assert (_parse_ai_response json_loads text experiment_type = Raise e) as Hparse.
  { unfold _parse_ai_response. rewrite (parse_try_decode_error _ _ _ Hdec).
    by destruct e. }
  split; [done|].
  unfold analyze_image. destruct (use_ai self); [|done].
  apply analyze_with_ai_mock. intros r Hr.
  apply (analyze_try_fixed_answer _ _ _ text) in Hr; [|done].
  by rewrite Hparse in Hr.
Qed.

Lemma other_decoder_errors_pass_the_parser_witness :
  _parse_ai_response Json.loads long_number_text "circuits" = Raise ValueError /\
  analyze_image Json.loads Base64.b64decode (backend_answering long_number_text)
                (__init__ environ_with_key) "/9j/4AAQ" "circuits"
  = Ok (_mock_analysis "circuits").
Proof.
  apply other_decoder_errors_pass_the_parser.
  - vm_compute. reflexivity.
  - discriminate.
  - reflexivity.
Defined.

Ltac app_normal :=
  repeat first [ rewrite <- app_assoc | progress simpl ]; reflexivity.

Lemma strip_code_fence_opened (tag text body : str) :
  tag = ("" : str) \/ tag = ("json" : str) ->
  braced text body ->
  strip_code_fence (("```" : str) ++ tag ++ [10] ++ text) = body.
Proof.
  intros Htag (ws1 & mid & ws2 & -> & -> & H1 & H2). unfold strip_code_fence.
  assert (strip (("```" : str) ++ tag ++ [10] ++ ws1 ++ 123 :: mid ++ 125 :: ws2)
          = ("```" : str) ++ tag ++ [10] ++ ws1 ++ 123 :: mid ++ [125]) as ->.
  { change (("```" : str) ++ tag ++ [10] ++ ws1 ++ 123 :: mid ++ 125 :: ws2)
      with ([] ++ 96 :: ([96; 96] ++ tag ++ [10] ++ ws1 ++ 123 :: mid ++ 125 :: ws2)).
    replace ([96; 96] ++ tag ++ [10] ++ ws1 ++ 123 :: mid ++ 125 :: ws2)
      with (([96; 96] ++ tag ++ [10] ++ ws1 ++ 123 :: mid) ++ 125 :: ws2)
      by app_normal.
    rewrite strip_delimited by done. app_normal. }
  set (whole := ("```" : str) ++ tag ++ [10] ++ ws1 ++ 123 :: mid ++ [125]).
  set (opened := if startswith whole "```json" then slice_from 7 whole else whole).
  set (inner := if startswith opened "```" then slice_from 3 opened else opened).
  assert (inner = (10 :: ws1) ++ 123 :: mid ++ 125 :: []) as ->.
  { subst inner opened whole. by destruct Htag as [-> | ->]. }
  assert (endswith ((10 :: ws1) ++ 123 :: mid ++ [125]) "```" = false) as ->.
  { replace ((10 :: ws1) ++ 123 :: mid ++ [125])
      with (((10 :: ws1) ++ 123 :: mid) ++ [125])
      by app_normal.
    by apply (endswith_last_ne _ 125 96 [96; 96]). }
  apply strip_delimited; simpl; by rewrite ?H1.
Qed.

Lemma strip_code_fence_closed (text body : str) :
  braced text body ->
  strip_code_fence (text ++ [10] ++ ("```" : str)) = body.
Proof.
  intros (ws1 & mid & ws2 & -> & -> & H1 & H2). unfold strip_code_fence.
  assert (strip ((ws1 ++ 123 :: mid ++ 125 :: ws2) ++ [10] ++ ("```" : str))
          = (123 :: mid ++ 125 :: ws2 ++ [10]) ++ ("```" : str)) as ->.
  { replace ((ws1 ++ 123 :: mid ++ 125 :: ws2) ++ [10] ++ ("```" : str))
      with (ws1 ++ 123 :: (mid ++ 125 :: ws2 ++ [10] ++ [96; 96]) ++ 96 :: [])
      by app_normal.
    rewrite strip_delimited by done. app_normal. }
  change (startswith ((123 :: mid ++ 125 :: ws2 ++ [10]) ++ ("```" : str)) "```json")
    with false. cbv iota.
  change (startswith ((123 :: mid ++ 125 :: ws2 ++ [10]) ++ ("```" : str)) "```")
    with false. cbv iota.
  rewrite endswith_app.
  change 3%nat with (length ("```" : str)). rewrite slice_drop_last_app.
  apply (strip_delimited [] (ws2 ++ [10]) mid 123 125); try done.
  rewrite forallb_app, H2. done.
Qed.

(** X7: one marker is enough.  For a text that [json.loads] decodes to
    an object, the parser gives the same result on the bare text, on
    the text preceded by an opening fence marker alone (without tag or
    with the tag json) and on the text followed by a closing marker
    alone. *)
Theorem parse_half_fenced_same (text tag experiment_type : str) (d : gmap str value) :
  Json.loads text = Ok (VDict d) ->
  tag = ("" : str) \/ tag = ("json" : str) ->
  _parse_ai_response Json.loads (("```" : str) ++ tag ++ [10] ++ text) experiment_type
  = _parse_ai_response Json.loads text experiment_type /\
  _parse_ai_response Json.loads (text ++ [10] ++ ("```" : str)) experiment_type
  = _parse_ai_response Json.loads text experiment_type.
Proof.
  intros [body Hbody]%loads_object_braced Htag.
  split; apply parse_same_stripped.
  - by rewrite (strip_code_fence_opened tag text body),
               (strip_code_fence_braced text body).
  - by rewrite (strip_code_fence_closed text body),
               (strip_code_fence_braced text body).
Qed.

Lemma parse_half_fenced_same_witness :
  _parse_ai_response Json.loads
    (("```" : str) ++ ("json" : str) ++ [10] ++ partial_response_text) "circuits"
  = _parse_ai_response Json.loads partial_response_text "circuits" /\
  _parse_ai_response Json.loads (partial_response_text ++ [10] ++ ("```" : str)) "circuits"
  = _parse_ai_response Json.loads partial_response_text "circuits".
Proof.
  apply (parse_half_fenced_same partial_response_text "json" "circuits" partial_response).
  - vm_compute. reflexivity.
  - right. reflexivity.
Defined.

(** ** The persistence layer *)

Lemma get_non_dict (v : value) (key : str) (dflt : value) :
  is_dict v = false -> get v key dflt = Throw AttributeError.
Proof. by destruct v. Qed.

Lemma session_data_non_dict (experiment_id analysis_result : value) (image_data : str) :
  is_dict analysis_result = false ->
  Database.session_data experiment_id (VStr image_data) analysis_result
  = Throw AttributeError.
Proof. intros H. unfold Database.session_data. simpl. by rewrite get_non_dict. Qed.

Lemma session_data_image (experiment_id image_data analysis_result row : value) :
  Database.session_data experiment_id image_data analysis_result = Return row ->
  exists preview,
    slice_to 1000 image_data = Return preview /\
    getitem row "image_data" = Ok preview.
Proof.
  unfold Database.session_data. intros H.
  destruct (slice_to 1000 image_data) as [preview|]; [|done]. simpl in H.
  repeat match type of H with
         | obind ?o _ = _ => destruct o; [simpl in H | done]
         end.
  exists preview. split; [done|]. by simplify_eq.
Qed.

Section ClientFacts.

Context {store : Type}.
Variable insert : str -> value -> io store value.
Variable select_by_id : str -> value -> io store value.

Lemma create_analysis_session_fails (experiment_id image_data analysis_result : value)
      (e : exception) (st : store) :
  Database.session_data experiment_id image_data analysis_result = Throw e ->
  Database.create_analysis_session store insert experiment_id image_data analysis_result st
  = (Throw e, st).
Proof.
  intros H. unfold Database.create_analysis_session, io_catch, io_bind, io_pure.
  by rewrite H.
Qed.

Lemma create_analysis_session_writes (experiment_id image_data analysis_result row : value)
      (st : store) :
  Database.session_data experiment_id image_data analysis_result = Return row ->
  Database.create_analysis_session store insert experiment_id image_data analysis_result st
  = (obind (insert "analysis_sessions" row st).1 Database.first_id,
     (insert "analysis_sessions" row st).2).
Proof.
  intros H. unfold Database.create_analysis_session, io_catch, io_bind, io_pure.
  rewrite H. destruct (insert _ row st) as [[data|e] st']; simpl; [|done].
  by destruct (Database.first_id data).
Qed.

Lemma create_component_fails (session_id component : value) (e : exception) (st : store) :
  Database.component_data session_id component = Throw e ->
  Database.create_component store insert session_id component st = (Throw e, st).
Proof.
  intros H. unfold Database.create_component, io_catch, io_bind, io_pure.
  by rewrite H.
Qed.

Lemma create_component_writes (session_id component row : value) (st : store) :
  Database.component_data session_id component = Return row ->
  Database.create_component store insert session_id component st
  = (obind (insert "experiment_components" row st).1 Database.first_id,
     (insert "experiment_components" row st).2).
Proof.
  intros H. unfold Database.create_component, io_catch, io_bind, io_pure.
  rewrite H. destruct (insert _ row st) as [[data|e] st']; simpl; [|done].
  by destruct (Database.first_id data).
Qed.

End ClientFacts.

(** X9: [create_analysis_session] writes at most one row, into the
    table analysis_sessions, and the image_data field of that row holds
    the first 1000 characters of the image string, the whole string
    when it is no longer than that. *)
Theorem session_preview_bounded
        {store : Type} (insert : str -> value -> io store value)
        (experiment_id analysis_result : value) (image_data : str) (st : store) :
  let log := (Database.create_analysis_session
                (store * list (str * value)) (recording insert)
                experiment_id (VStr image_data) analysis_result (st, [])).2.2 in
  log = [] \/
  exists row,
    log = [(("analysis_sessions" : str), row)] /\
    getitem row "image_data" = Ok (VStr (take 1000 image_data)) /\
    (length (take 1000 image_data) <= 1000)%nat /\
    ((length image_data <= 1000)%nat -> take 1000 image_data = image_data).
Proof.
  simpl.
  destruct (Database.session_data experiment_id (VStr image_data) analysis_result)
    as [row|e] eqn:E.
  - right. exists row.
    rewrite (create_analysis_session_writes _ _ _ _ _ _ E).
    unfold recording. simpl.
    destruct (insert _ row st) as [answer s]. simpl. split; [done|].
    apply session_data_image in E as (preview & Hp & Hrow). simpl in Hp.
    simplify_eq. split; [done|]. split.
    + rewrite length_take. lia.
    + apply take_ge.
  - left. by rewrite (create_analysis_session_fails _ _ _ _ _ _ E).
Qed.

(** X10: for an image string, building the session row fails in two
    cases only: the analysis is not a dictionary ([AttributeError]), or
    its components entry is a value without length ([TypeError]). *)
Theorem session_data_failure_characterised
        (experiment_id analysis_result : value) (image_data : str) (e : exception) :
  Database.session_data experiment_id (VStr image_data) analysis_result = Throw e <->
  (is_dict analysis_result = false /\ e = AttributeError) \/
  (exists d components,
      analysis_result = VDict d /\
      d !! ("components" : str) = Some components /\
      len components = Raise TypeError /\
      e = Builtin TypeError).
Proof.
  split.
  - destruct (is_dict analysis_result) eqn:Hd.
    + destruct analysis_result as [| | | | | |d]; try done.
      unfold Database.session_data. simpl. intros H. right.
      destruct (d !! ("components" : str)) as [components|] eqn:Hc; simpl in H; [|done].
      destruct (len components) as [n|e'] eqn:Hl; simpl in H; [done|].
      exists d, components. simplify_eq.
      destruct components; simpl in Hl; by simplify_eq.
    + rewrite session_data_non_dict by done. intros [= <-]. by left.
  - intros [[Hd ->] | (d & components & -> & Hc & Hl & ->)].
    + by apply session_data_non_dict.
    + unfold Database.session_data. simpl. rewrite Hc. simpl. by rewrite Hl.
Qed.

(** X11: once the row is built, [create_analysis_session] returns the
    id of the first row the store answers with and leaves the store as
    the insert left it; when the store answers with no row it raises
    [IndexError] although the row has been written, and an exception of
    the insert is raised again. *)
Theorem create_analysis_session_result
        {store : Type} (insert : str -> value -> io store value)
        (experiment_id image_data analysis_result row : value) (st : store) :
  Database.session_data experiment_id image_data analysis_result = Return row ->
  (forall rows st',
      insert "analysis_sessions" row st = (Return (VList rows), st') ->
      Database.create_analysis_session store insert
        experiment_id image_data analysis_result st
      = (match rows with
         | [] => Throw (Builtin IndexError)
         | first :: _ => lift (getitem first "id")
         end, st')) /\
  (forall e st',
      insert "analysis_sessions" row st = (Throw e, st') ->
      Database.create_analysis_session store insert
        experiment_id image_data analysis_result st
      = (Throw e, st')).
Proof.
  intros Hrow. split.
  - intros rows st' H. rewrite (create_analysis_session_writes _ _ _ _ _ _ Hrow), H.
    simpl. by destruct rows.
  - intros e st' H. by rewrite (create_analysis_session_writes _ _ _ _ _ _ Hrow), H.
Qed.

Lemma create_analysis_session_result_witness :
  (forall rows st',
      memory_insert "analysis_sessions"
        (dict [("experiment_id", VNone); ("image_data", VStr "/9j/4AAQ");
               ("ai_observations", dict [("observations", VStr "a lamp");
                                         ("components_summary", VInt 0)]);
               ("predicted_outcome", VStr ""); ("safety_warnings", VList []);
               ("guidance", VList []); ("confidence_score", VFloat 0);
               ("status", VStr "completed")]) []
      = (Return (VList rows), st') ->
      Database.create_analysis_session memory_store memory_insert
        VNone (VStr "/9j/4AAQ") (VDict partial_response) []
      = (match rows with
         | [] => Throw (Builtin IndexError)
         | first :: _ => lift (getitem first "id")
         end, st')) /\
  (forall e st',
      memory_insert "analysis_sessions"
        (dict [("experiment_id", VNone); ("image_data", VStr "/9j/4AAQ");
               ("ai_observations", dict [("observations", VStr "a lamp");
                                         ("components_summary", VInt 0)]);
               ("predicted_outcome", VStr ""); ("safety_warnings", VList []);
               ("guidance", VList []); ("confidence_score", VFloat 0);
               ("status", VStr "completed")]) []
      = (Throw e, st') ->
      Database.create_analysis_session memory_store memory_insert
        VNone (VStr "/9j/4AAQ") (VDict partial_response) []
      = (Throw e, st')).
Proof.
  apply create_analysis_session_result. vm_compute. reflexivity.
Defined.

(** ** The analyzer on untyped arguments *)

Lemma mock_dyn_result (experiment_type r : value) :
  _mock_analysis_dyn experiment_type = Return r ->
  is_dict r = true /\ has_optional_keys r = true.
Proof.
  unfold _mock_analysis_dyn, table_get.
  assert (is_dict (mock_data !!! ("circuits" : str)) = true /\
          has_optional_keys (mock_data !!! ("circuits" : str)) = true) as Hdefault
      by (split; vm_compute; reflexivity).
  destruct experiment_type as [| | | |k| |]; intros H;
    try discriminate H; injection H as <-; try exact Hdefault.
  change (default (mock_data !!! ("circuits" : str)) (mock_data !! k))
    with (_mock_analysis k).
  split; [|apply mock_has_optional_keys].
  destruct (mock_analysis_cases k) as [-> | [-> | ->]]; reflexivity.
Qed.

Lemma mock_dyn_string (experiment_type : str) :
  _mock_analysis_dyn (VStr experiment_type) = Return (_mock_analysis experiment_type).
Proof. reflexivity. Qed.

Section AnalyzerDynFacts.

Variable json_loads : str -> result value.
Variable b64decode : str -> result bytes.
Variable generate_content : str -> bytes -> result str.

Lemma parse_dyn_result (response_text : str) (experiment_type r : value) :
  _parse_ai_response_dyn json_loads response_text experiment_type = Return r ->
  _parse_ai_response_try json_loads response_text = Ok r \/
  _mock_analysis_dyn experiment_type = Return r.
Proof.
  unfold _parse_ai_response_dyn.
  destruct (_parse_ai_response_try json_loads response_text) as [a|[]];
    intros H; simplify_eq; auto.
Qed.

Lemma analyze_image_dyn_origin (self : ExperimentAnalyzer)
      (image_data experiment_type r : value) :
  analyze_image_dyn json_loads b64decode generate_content self image_data experiment_type
  = Return r ->
  _mock_analysis_dyn experiment_type = Return r \/
  exists text, _parse_ai_response_try json_loads text = Ok r.
Proof.
  unfold analyze_image_dyn. destruct (use_ai self); [|auto].
  unfold _analyze_with_ai_dyn.
  destruct (_analyze_with_ai_try_dyn _ _ _ _ _) as [a|e] eqn:E; [|auto].
  intros [= ->]. unfold _analyze_with_ai_try_dyn in E.
  repeat match type of E with
         | obind ?o _ = _ => destruct o eqn:?; [simpl in E | done]
         end.
  simplify_eq.
  match goal with
  | P : _parse_ai_response_dyn _ _ _ = Return _ |- _ =>
      apply parse_dyn_result in P as [P | P]; eauto
  end.
Qed.

Lemma analyze_image_dyn_dict_keys (self : ExperimentAnalyzer)
      (image_data experiment_type : value) (d : gmap str value) :
  analyze_image_dyn json_loads b64decode generate_content self image_data experiment_type
  = Return (VDict d) ->
  has_optional_keys (VDict d) = true.
Proof.
  intros [H | [text H]]%analyze_image_dyn_origin.
  - by apply mock_dyn_result in H as [_ H].
  - by apply (parse_try_dict_keys json_loads text).
Qed.

(** On strings the untyped analyzer is [analyze_image]. *)
Lemma analyze_image_dyn_strings (self : ExperimentAnalyzer)
      (image_data experiment_type : str) :
  analyze_image_dyn json_loads b64decode generate_content self
                    (VStr image_data) (VStr experiment_type)
  = lift (analyze_image json_loads b64decode generate_content self
                        image_data experiment_type).
Proof.
  unfold analyze_image_dyn, analyze_image. destruct (use_ai self); [|done].
  unfold _analyze_with_ai_dyn, _analyze_with_ai,
    _analyze_with_ai_try_dyn, _analyze_with_ai_try.
  assert (forall payload : str,
    match
      (let? image_bytes := lift (b64decode payload) in
       let? prompt := _build_analysis_prompt_dyn (VStr experiment_type) in
       let? analysis_text := lift (generate_content prompt image_bytes) in
       let? analysis := _parse_ai_response_dyn json_loads analysis_text
                                               (VStr experiment_type) in
       Return analysis)
    with
    | Return analysis => Return analysis
    | Throw _ => _mock_analysis_dyn (VStr experiment_type)
    end
    = lift match
        (let! image_bytes := b64decode payload in
         let! analysis_text :=
           generate_content (_build_analysis_prompt experiment_type) image_bytes in
         let! analysis := _parse_ai_response json_loads analysis_text experiment_type in
         Ok analysis)
      with
      | Ok analysis => Ok analysis
      | Raise _ => Ok (_mock_analysis experiment_type)
      end) as Hrest.
  { intros payload. destruct (b64decode payload) as [image|]; [|done]. simpl.
    change (_build_analysis_prompt_dyn (VStr experiment_type))
      with (Return (_build_analysis_prompt experiment_type) : outcome str).
    simpl. destruct (generate_content _ image) as [text|]; [|done]. simpl.
    unfold _parse_ai_response_dyn, _parse_ai_response.
    destruct (_parse_ai_response_try json_loads text) as [a|[]]; done. }
  destruct (startswith image_data "data:image"); [|apply Hrest].
  destruct (split 44 image_data !! 1%nat) as [payload|]; [apply Hrest|done].
Qed.

Lemma mock_dyn_unhashable (experiment_type : value) :
  (exists l, experiment_type = VList l) \/ (exists d, experiment_type = VDict d) ->
  _mock_analysis_dyn experiment_type = Throw (Builtin TypeError).
Proof. by intros [[l ->] | [d ->]]. Qed.

Lemma analyze_with_ai_dyn_unhashable (image_data experiment_type : value) :
  (exists l, experiment_type = VList l) \/ (exists d, experiment_type = VDict d) ->
  _analyze_with_ai_dyn json_loads b64decode generate_content image_data experiment_type
  = Throw (Builtin TypeError).
Proof.
  intros Het.
  assert (_build_analysis_prompt_dyn experiment_type = Throw (Builtin TypeError)) as Hprompt
      by (by destruct Het as [[l ->] | [d ->]]).
  unfold _analyze_with_ai_dyn.
  destruct (_analyze_with_ai_try_dyn _ _ _ _ _) as [a|e] eqn:E;
    [|by apply mock_dyn_unhashable].
  unfold _analyze_with_ai_try_dyn in E. rewrite Hprompt in E.
  repeat match type of E with
         | obind ?o _ = _ => destruct o; [simpl in E | done]
         end.
  done.
Qed.

(** X12: an experiment type that is a JSON array or object is not
    hashable: [analyze_image] raises [TypeError] on it, with or without
    a credential, since the handler of [_analyze_with_ai] looks the
    type up again in the table of canned analyses. *)
Theorem unhashable_experiment_type_raises (self : ExperimentAnalyzer)
        (image_data experiment_type : value) :
  (exists l, experiment_type = VList l) \/ (exists d, experiment_type = VDict d) ->
  analyze_image_dyn json_loads b64decode generate_content self image_data experiment_type
  = Throw (Builtin TypeError).
Proof.
  intros Het. unfold analyze_image_dyn. destruct (use_ai self).
  - by apply analyze_with_ai_dyn_unhashable.
  - by apply mock_dyn_unhashable.
Qed.

End AnalyzerDynFacts.

Lemma unhashable_experiment_type_raises_witness :
  analyze_image_dyn Json.loads Base64.b64decode backend_failing
                    (__init__ environ_with_key) (VStr "/9j/4AAQ") (VList [VStr "physics"])
  = Throw (Builtin TypeError).
Proof.
  apply unhashable_experiment_type_raises. left. by eexists.
Defined.

(** ** The routes *)

Lemma image_data_present (d : gmap str value) (image_data : value) :
  d !! ("image_data" : str) = Some image_data ->
  App.image_data_missing (VDict d) = Return false.
Proof.
  intros H. unfold App.image_data_missing. simpl.
  rewrite bool_decide_eq_false_2.
  2: { intros ->. by rewrite lookup_empty in H. }
  simpl. rewrite bool_decide_eq_true_2; [done | by eexists].
Qed.

Lemma image_data_missing_non_dict (data : value) :
  is_dict data = false ->
  App.image_data_missing data = Return true \/
  (exists e, App.image_data_missing data = Throw e) \/
  (App.image_data_missing data = Return false /\
   get data "experiment_id" VNone = Throw AttributeError).
Proof.
  intros Hd. unfold App.image_data_missing.
  destruct data as [|b|z|f|s|l|d]; try done; simpl.
  - by left.
  - destruct b; simpl; [right; left; by eexists | by left].
  - destruct (z =? 0)%Z; simpl; [by left | right; left; by eexists].
  - destruct (PrimFloat.eqb f 0); simpl; [by left | right; left; by eexists].
  - destruct (bool_decide (s = [])); simpl; [by left|].
    destruct (str_contains s _); simpl; [right; right; done | by left].
  - destruct l; simpl; [by left|].
    destruct (_ || _); simpl; [right; right; done | by left].
Qed.

Lemma session_data_returns (experiment_id image_data analysis_result row : value) :
  Database.session_data experiment_id image_data analysis_result = Return row ->
  is_dict analysis_result = true /\ is_dict row = true.
Proof.
  unfold Database.session_data. intros H.
  destruct (slice_to 1000 image_data) as [preview|]; [|done]. simpl in H.
  destruct analysis_result as [| | | | | |d]; try done. split; [done|].
  repeat match type of H with
         | obind ?o _ = _ => destruct o; [simpl in H | done]
         end.
  by simplify_eq.
Qed.

Lemma session_data_unsliceable (experiment_id image_data analysis_result : value) :
  (forall s, image_data <> VStr s) -> (forall l, image_data <> VList l) ->
  exists e, Database.session_data experiment_id image_data analysis_result = Throw e.
Proof.
  intros Hs Hl. unfold Database.session_data.
  destruct image_data as [| | | |s|l|]; simpl; try by eexists.
  - by destruct (Hs s).
  - by destruct (Hl l).
Qed.

Lemma component_data_dict (session_id : value) (c : gmap str value) :
  exists row : gmap str value,
    Database.component_data session_id (VDict c) = Return (VDict row).
Proof. unfold Database.component_data. simpl. by eexists. Qed.

Lemma component_data_non_dict (session_id component : value) :
  is_dict component = false ->
  Database.component_data session_id component = Throw AttributeError.
Proof. by destruct component. Qed.

Section RouteFacts.

Context {store : Type}.
Variable json_loads : str -> result value.
Variable b64decode : str -> result bytes.
Variable generate_content : str -> bytes -> result str.
Variable insert : str -> value -> io store value.
Variable str_of_exception : exception -> str.
Variable analyzer : ExperimentAnalyzer.

Lemma analyze_experiment_raised (e : exception) (st : store) :
  App.analyze_experiment json_loads b64decode generate_content store insert
                         str_of_exception analyzer (Throw e) st
  = (Return (error_response (str_of_exception e) 500), st).
Proof. reflexivity. Qed.

Lemma analyze_experiment_missing (data : value) (st : store) :
  App.image_data_missing data = Return true ->
  App.analyze_experiment json_loads b64decode generate_content store insert
                         str_of_exception analyzer (Return data) st
  = (Return (error_response "No image data provided" 400), st).
Proof.
  intros H. unfold App.analyze_experiment, io_catch, io_bind, io_ret, io_pure.
  by rewrite H.
Qed.

Lemma analyze_experiment_object (d : gmap str value) (image_data : value) (st : store) :
  d !! ("image_data" : str) = Some image_data ->
  App.analyze_experiment json_loads b64decode generate_content store insert
                         str_of_exception analyzer (Return (VDict d)) st
  = let experiment_id := default VNone (d !! ("experiment_id" : str)) in
    let experiment_type := default (VStr "general") (d !! ("experiment_type" : str)) in
    match analyze_image_dyn json_loads b64decode generate_content analyzer
                            image_data experiment_type with
    | Throw e => (Return (error_response (str_of_exception e) 500), st)
    | Return analysis_result =>
        match Database.create_analysis_session store insert
                experiment_id image_data analysis_result st with
        | (Throw e, st1) => (Return (error_response (str_of_exception e) 500), st1)
        | (Return session_id, st1) =>
            match App.store_components store insert session_id analysis_result st1 with
            | (Throw e, st2) => (Return (error_response (str_of_exception e) 500), st2)
            | (Return _, st2) =>
                (Return (completed_response session_id analysis_result), st2)
            end
        end
    end.
Proof.
  intros H. unfold App.analyze_experiment, io_catch, io_bind, io_ret, io_pure.
  rewrite (image_data_present _ _ H).
  cbn [get obind]. rewrite H. cbn [default from_option id].
  destruct (analyze_image_dyn _ _ _ _ _ _) as [a|e]; [|done].
  destruct (Database.create_analysis_session _ _ _ _ _ _) as [[sid|e] st1]; [|done].
  by destruct (App.store_components _ _ _ _ _) as [[[]|e] st2].
Qed.

Lemma store_components_dict (session_id : value) (a : gmap str value) (st : store) :
  App.store_components store insert session_id (VDict a) st
  = match a !! ("components" : str) with
    | Some components =>
        if truthy components
        then match iterate components with
             | Return items =>
                 for_each items
                   (fun component =>
                      do! component_id :=
                        Database.create_component store insert session_id component in
                      io_ret tt) st
             | Throw e => (Throw e, st)
             end
        else (Return tt, st)
    | None => (Return tt, st)
    end.
Proof.
  unfold App.store_components, io_bind, io_ret, io_pure. cbn [get getitem].
  destruct (a !! ("components" : str)) as [components|]; cbn [default from_option id truthy]; [|done].
  destruct (truthy components); [|done]. cbn [lift].
  by destruct (iterate components).
Qed.


(** X13: a request whose body is empty (null, false, zero, an empty
    string, array or object) or is an object without the key image_data
    is answered with status 400 and the text No image data provided;
    the analyzer is not consulted and the store is left as it was. *)
Theorem request_without_image_rejected (data : value) (st : store) :
  truthy data = false \/
  (exists d, data = VDict d /\ d !! ("image_data" : str) = None) ->
  App.analyze_experiment json_loads b64decode generate_content store insert
                         str_of_exception analyzer (Return data) st
  = (Return (error_response "No image data provided" 400), st).
Proof.
  intros H. apply analyze_experiment_missing. unfold App.image_data_missing.
  destruct H as [-> | (d & -> & H)]; [done|].
  destruct (truthy (VDict d)); [|done]. simpl.
  rewrite bool_decide_eq_false_2; [done|]. rewrite H. by intros [? ?].
Qed.

(** X14: a request body that is not a JSON object is never analysed:
    the answer is the 400 of a missing image or a 500, and the store is
    left as it was. *)
Theorem non_object_body_never_analysed (data : value) (st : store) :
  is_dict data = false ->
  App.analyze_experiment json_loads b64decode generate_content store insert
                         str_of_exception analyzer (Return data) st
  = (Return (error_response "No image data provided" 400), st) \/
  exists e,
    App.analyze_experiment json_loads b64decode generate_content store insert
                           str_of_exception analyzer (Return data) st
    = (Return (error_response (str_of_exception e) 500), st).
Proof.
  intros Hd.
  destruct (image_data_missing_non_dict data Hd) as [H | [[e H] | [H Hget]]].
  - left. by apply analyze_experiment_missing.
  - right. exists e.
    unfold App.analyze_experiment, io_catch, io_bind, io_ret, io_pure. by rewrite H.
  - right. exists AttributeError.
    unfold App.analyze_experiment, io_catch, io_bind, io_ret, io_pure.
    by rewrite H, Hget.
Qed.

(** X15: a request whose image_data is neither a string nor an array
    (null, a number, a boolean, an object), or whose experiment_type is
    an array or an object, is answered with status 500, and nothing is
    written to the store. *)
Theorem malformed_fields_rejected (d : gmap str value) (image_data : value) (st : store) :
  d !! ("image_data" : str) = Some image_data ->
  ((forall s, image_data <> VStr s) /\ (forall l, image_data <> VList l)) \/
  (exists l, d !! ("experiment_type" : str) = Some (VList l)) \/
  (exists m, d !! ("experiment_type" : str) = Some (VDict m)) ->
  exists e,
    App.analyze_experiment json_loads b64decode generate_content store insert
                           str_of_exception analyzer (Return (VDict d)) st
    = (Return (error_response (str_of_exception e) 500), st).
Proof.
  intros Himg H. rewrite (analyze_experiment_object _ _ _ Himg). cbv zeta.
  destruct H as [[Hs Hl] | Hty].
  - destruct (analyze_image_dyn _ _ _ _ _ _) as [a|e]; [|by eexists].
    destruct (session_data_unsliceable (default VNone (d !! ("experiment_id" : str)))
                image_data a Hs Hl) as [e He].
    exists e. by rewrite (create_analysis_session_fails _ _ _ _ _ _ He).
  - exists (Builtin TypeError).
    assert (analyze_image_dyn json_loads b64decode generate_content analyzer image_data
              (default (VStr "general") (d !! ("experiment_type" : str)))
            = Throw (Builtin TypeError)) as ->; [|done].
    assert ((exists l, default (VStr "general") (d !! ("experiment_type" : str)) = VList l) \/
            (exists m, default (VStr "general") (d !! ("experiment_type" : str)) = VDict m))
      as Het.
    { destruct Hty as [[l ->] | [m ->]]; [left | right]; by eexists. }
    unfold analyze_image_dyn. destruct (use_ai analyzer).
    + by apply analyze_with_ai_dyn_unhashable.
    + by apply mock_dyn_unhashable.
Qed.

(** X16: when the analyzer returns a value that is not a dictionary
    (a backend answer that decodes to an array or a string holding the
    three optional key names), the request is answered with status 500
    and the text of an [AttributeError], and nothing is written. *)
Theorem non_dict_analysis_rejected (d : gmap str value) (image_data : str)
        (r : value) (st : store) :
  d !! ("image_data" : str) = Some (VStr image_data) ->
  analyze_image_dyn json_loads b64decode generate_content analyzer (VStr image_data)
                    (default (VStr "general") (d !! ("experiment_type" : str)))
  = Return r ->
  is_dict r = false ->
  App.analyze_experiment json_loads b64decode generate_content store insert
                         str_of_exception analyzer (Return (VDict d)) st
  = (Return (error_response (str_of_exception AttributeError) 500), st).
Proof.
  intros Himg Hr Hd. rewrite (analyze_experiment_object _ _ _ Himg). cbv zeta.
  rewrite Hr.
  by rewrite (create_analysis_session_fails _ _ _ _ _ _
                (session_data_non_dict _ _ _ Hd)).
Qed.

End RouteFacts.

Lemma request_without_image_rejected_witness :
  App.analyze_experiment Json.loads Base64.b64decode backend_failing
                         memory_store memory_insert exception_text
                         (__init__ environ_without_key) (Return body_without_image) []
  = (Return (error_response "No image data provided" 400), []).
Proof.
  apply request_without_image_rejected. right. eexists.
  split; [reflexivity | vm_compute; reflexivity].
Defined.

Lemma non_object_body_never_analysed_witness :
  App.analyze_experiment Json.loads Base64.b64decode backend_failing
                         memory_store memory_insert exception_text
                         (__init__ environ_without_key)
                         (Return (VList [VStr "image_data"])) []
  = (Return (error_response "No image data provided" 400), []) \/
  exists e,
    App.analyze_experiment Json.loads Base64.b64decode backend_failing
                           memory_store memory_insert exception_text
                           (__init__ environ_without_key)
                           (Return (VList [VStr "image_data"])) []
    = (Return (error_response (exception_text e) 500), []).
Proof. apply non_object_body_never_analysed. reflexivity. Defined.

Lemma malformed_fields_rejected_witness :
  exists e,
    App.analyze_experiment Json.loads Base64.b64decode backend_failing
                           memory_store memory_insert exception_text
                           (__init__ environ_without_key)
                           (Return (dict [("image_data", VInt 7)])) []
    = (Return (error_response (exception_text e) 500), []).
Proof.
  apply (malformed_fields_rejected _ _ _ _ _ _ _ (VInt 7)).
  - vm_compute. reflexivity.
  - left. split; discriminate.
Defined.

Lemma non_dict_analysis_rejected_witness :
  App.analyze_experiment Json.loads Base64.b64decode (backend_answering keys_array_text)
                         memory_store memory_insert exception_text
                         (__init__ environ_with_key) (Return body_with_image) []
  = (Return (error_response (exception_text AttributeError) 500), []).
Proof.
  apply (non_dict_analysis_rejected _ _ _ _ _ _ _ "/9j/4AAQ"
           (VList [VStr "safety_warnings"; VStr "guidance"; VStr "confidence_score"])).
  - vm_compute. reflexivity.
  - vm_compute. reflexivity.
  - reflexivity.
Defined.

Lemma iterate_component_rows (session_id components : value)
      (items : list value) (rows : list (str * value)) :
  truthy components = true ->
  iterate components = Return items ->
  Forall2 (component_row session_id) items rows ->
  components = VList items.
Proof.
  intros Ht Hi Hrows.
  destruct components as [| | | |s|l|m]; simpl in Hi; simplify_eq; [| done |].
  - destruct s as [|c s]; [done|]. simpl in Hrows.
    apply Forall2_cons_inv_l in Hrows as (entry & rows' & [_ Hc] & _). done.
  - simpl in Ht. destruct (map_to_list m) as [|[k v] kvs] eqn:E.
    + apply map_to_list_empty_iff in E. subst m. done.
    + simpl in Hrows.
      apply Forall2_cons_inv_l in Hrows as (entry & rows' & [_ Hc] & _). done.
Qed.

Lemma session_data_string (experiment_id : value) (image_data : str)
      (a : gmap str value) :
  a !! ("components" : str) = None \/
  (exists l, a !! ("components" : str) = Some (VList l)) ->
  exists row : gmap str value,
    Database.session_data experiment_id (VStr image_data) (VDict a) = Return (VDict row).
Proof.
  intros H. unfold Database.session_data. cbn [slice_to get obind].
  destruct H as [-> | [l ->]]; cbn [default from_option id len lift obind]; by eexists.
Qed.

Section ClientReturns.

Context {store : Type}.
Variable insert : str -> value -> io store value.

Lemma create_analysis_session_returns
      (experiment_id image_data analysis_result session_id : value) (st st1 : store) :
  Database.create_analysis_session store insert
    experiment_id image_data analysis_result st = (Return session_id, st1) ->
  exists srow,
    Database.session_data experiment_id image_data analysis_result = Return srow /\
    st1 = (insert "analysis_sessions" srow st).2.
Proof.
  intros H.
  destruct (Database.session_data experiment_id image_data analysis_result)
    as [srow|e] eqn:E.
  - exists srow. split; [done|].
    rewrite (create_analysis_session_writes _ _ _ _ _ _ E) in H. by injection H as _ <-.
  - by rewrite (create_analysis_session_fails _ _ _ _ _ _ E) in H.
Qed.

Lemma create_analysis_session_state
      (experiment_id image_data analysis_result : value) (st : store) :
  (Database.create_analysis_session store insert
     experiment_id image_data analysis_result st).2 = st \/
  exists srow,
    Database.session_data experiment_id image_data analysis_result = Return srow /\
    (Database.create_analysis_session store insert
       experiment_id image_data analysis_result st).2
    = (insert "analysis_sessions" srow st).2.
Proof.
  destruct (Database.session_data experiment_id image_data analysis_result)
    as [srow|e] eqn:E.
  - right. exists srow. split; [done|].
    by rewrite (create_analysis_session_writes _ _ _ _ _ _ E).
  - left. by rewrite (create_analysis_session_fails _ _ _ _ _ _ E).
Qed.

Hypothesis insert_accepting : accepting insert.

Lemma create_analysis_session_accepting
      (experiment_id image_data analysis_result : value) (row : gmap str value)
      (st : store) :
  Database.session_data experiment_id image_data analysis_result = Return (VDict row) ->
  exists session_id st1,
    Database.create_analysis_session store insert
      experiment_id image_data analysis_result st = (Return session_id, st1).
Proof.
  intros H. rewrite (create_analysis_session_writes _ _ _ _ _ _ H).
  destruct (insert_accepting "analysis_sessions" row st) as (data & id & st1 & -> & Hid).
  exists id, st1. simpl. by rewrite Hid.
Qed.

Lemma store_loop_accepting (session_id : value) (items : list value) (st : store) :
  Forall (fun c => is_dict c = true) items ->
  exists st',
    for_each items
      (fun component =>
         do! component_id :=
           Database.create_component store insert session_id component in
         io_ret tt) st
    = (Return tt, st').
Proof.
  intros H. revert st. induction H as [|c rest Hc _ IH]; intros st; [by eexists|].
  destruct c as [| | | | | |c]; try done.
  destruct (component_data_dict session_id c) as [crow Hrow].
  cbn [for_each]. unfold io_bind at 1. unfold io_bind at 1.
  rewrite (create_component_writes _ _ _ _ _ Hrow).
  destruct (insert_accepting "experiment_components" crow st)
    as (data & id & st1 & -> & Hid).
  simpl. rewrite Hid. apply IH.
Qed.

Lemma store_components_accepting (session_id : value) (a : gmap str value) (st : store) :
  a !! ("components" : str) = None \/
  (exists l, a !! ("components" : str) = Some (VList l) /\
             Forall (fun c => is_dict c = true) l) ->
  exists st', App.store_components store insert session_id (VDict a) st = (Return tt, st').
Proof.
  intros H. rewrite store_components_dict.
  destruct H as [-> | (l & -> & Hl)]; [by eexists|].
  destruct (truthy (VList l)); [|by eexists]. simpl. by apply store_loop_accepting.
Qed.

End ClientReturns.

Section RouteWrites.

Context {store : Type}.
Variable insert : str -> value -> io store value.

Lemma recording_insert (table : str) (row : value) (s : store)
      (log : list (str * value)) :
  recording insert table row (s, log)
  = ((insert table row s).1, ((insert table row s).2, log ++ [(table, row)])).
Proof. unfold recording. simpl. by destruct (insert table row s). Qed.

Lemma store_loop_log (session_id : value) (items : list value) :
  forall (s : store) (log : list (str * value)) o s' log',
  for_each items
    (fun component =>
       do! component_id :=
         Database.create_component (store * list (str * value)) (recording insert)
                                   session_id component in
       io_ret tt) (s, log)
  = (o, (s', log')) ->
  exists rows,
    log' = log ++ rows /\
    Forall2 (component_row session_id) (take (length rows) items) rows /\
    (o = Return tt -> length rows = length items).
Proof.
  induction items as [|c rest IH]; intros s log o s' log' H.
  - injection H as <- <- <-. exists []. by rewrite app_nil_r.
  - cbn [for_each] in H. unfold io_bind at 1 in H. unfold io_bind at 1 in H.
    destruct (Database.component_data session_id c) as [crow|e] eqn:E.
    + rewrite (create_component_writes _ _ _ _ _ E), recording_insert in H.
      cbn [fst snd] in H.
      destruct (obind (insert "experiment_components" crow s).1 Database.first_id)
        as [id|e].
      * apply IH in H as (rows & -> & Hrows & Hlen).
        exists ((("experiment_components" : str), crow) :: rows).
        split; [by rewrite <- app_assoc|]. split.
        -- simpl. by constructor.
        -- intros Ho. simpl. by rewrite Hlen.
      * injection H as <- <- <-.
        exists [(("experiment_components" : str), crow)].
        split; [done|]. split; [|done]. simpl. rewrite take_0. by repeat constructor.
    + rewrite (create_component_fails _ _ _ _ _ E) in H.
      injection H as <- <- <-. exists []. by rewrite app_nil_r.
Qed.

Lemma store_components_log (session_id : value) (a : gmap str value)
      (s : store) (log : list (str * value)) o s' log' :
  App.store_components (store * list (str * value)) (recording insert)
                       session_id (VDict a) (s, log)
  = (o, (s', log')) ->
  exists rows,
    log' = log ++ rows /\
    Forall (fun entry => entry.1 = ("experiment_components" : str)) rows /\
    (o = Return tt -> Forall2 (component_row session_id) (components_of (VDict a)) rows).
Proof.
  rewrite store_components_dict. unfold components_of. cbn [getitem].
  destruct (a !! ("components" : str)) as [components|].
  - destruct (truthy components) eqn:Ht.
    + destruct (iterate components) as [items|e] eqn:Hi.
      * intros H. apply store_loop_log in H as (rows & -> & Hrows & Hlen).
        exists rows. split; [done|]. split.
        -- clear Hlen. revert Hrows. generalize (take (length rows) items).
           intros l H. induction H as [|c entry l rows [Hc _] _ IH]; by constructor.
        -- intros Ho. specialize (Hlen Ho). rewrite Hlen, firstn_all in Hrows.
           by rewrite (iterate_component_rows _ _ _ _ Ht Hi Hrows).
      * intros [= <- <- <-]. exists []. by rewrite app_nil_r.
    + intros [= <- <- <-]. exists []. rewrite app_nil_r. split; [done|].
      split; [done|]. intros _.
      destruct components as [| | | | |l|]; try done. by destruct l.
  - intros [= <- <- <-]. exists []. by rewrite app_nil_r.
Qed.

End RouteWrites.

Lemma image_data_absent (d : gmap str value) :
  d !! ("image_data" : str) = None ->
  App.image_data_missing (VDict d) = Return true.
Proof.
  intros H. unfold App.image_data_missing.
  destruct (truthy (VDict d)); [|done]. simpl.
  rewrite bool_decide_eq_false_2; [done|]. rewrite H. by intros [? ?].
Qed.

Lemma error_response_not_completed {S : Type} (text : str) (status : nat)
      (body : value) (st st' : S) :
  status <> 200%nat ->
  (Return (error_response text status), st) <> (Return (body, 200%nat), st').
Proof. unfold error_response. intros Hs H. by injection H as _ Hstatus _. Qed.

Lemma mock_analysis_components (experiment_type : str) :
  exists a l,
    _mock_analysis experiment_type = VDict a /\
    a !! ("components" : str) = Some (VList l) /\
    Forall (fun c => is_dict c = true) l.
Proof.
  destruct (mock_analysis_cases experiment_type) as [-> | [-> | ->]].
  - eexists _, (components_of mock_circuits).
    split; [reflexivity|]. split; [vm_compute; reflexivity|].
    apply (bool_decide_unpack _). vm_compute. exact I.
  - eexists _, (components_of mock_chemistry).
    split; [reflexivity|]. split; [vm_compute; reflexivity|].
    apply (bool_decide_unpack _). vm_compute. exact I.
  - eexists _, (components_of mock_physics).
    split; [reflexivity|]. split; [vm_compute; reflexivity|].
    apply (bool_decide_unpack _). vm_compute. exact I.
Qed.

Lemma memory_insert_accepting : accepting memory_insert.
Proof.
  intros table row st. eexists _, (row_id (length st)), _.
  split; [reflexivity|]. unfold Database.first_id. simpl.
  by rewrite lookup_insert.
Qed.

Section RouteInversion.

Context {store : Type}.
Variable json_loads : str -> result value.
Variable b64decode : str -> result bytes.
Variable generate_content : str -> bytes -> result str.
Variable insert : str -> value -> io store value.
Variable str_of_exception : exception -> str.
Variable analyzer : ExperimentAnalyzer.

Lemma analyze_experiment_completed (get_json : outcome value) (body : value)
      (st st' : store) :
  App.analyze_experiment json_loads b64decode generate_content store insert
                         str_of_exception analyzer get_json st
  = (Return (body, 200%nat), st') ->
  exists d image_data a session_id st1,
    get_json = Return (VDict d) /\
    d !! ("image_data" : str) = Some image_data /\
    analyze_image_dyn json_loads b64decode generate_content analyzer image_data
                      (default (VStr "general") (d !! ("experiment_type" : str)))
    = Return (VDict a) /\
    Database.create_analysis_session store insert
      (default VNone (d !! ("experiment_id" : str))) image_data (VDict a) st
    = (Return session_id, st1) /\
    App.store_components store insert session_id (VDict a) st1 = (Return tt, st') /\
    (body, 200%nat) = completed_response session_id (VDict a).
Proof.
  intros H. destruct get_json as [data|e].
  2: { rewrite analyze_experiment_raised in H.
       by apply error_response_not_completed in H. }
  destruct (is_dict data) eqn:Hd.
  - destruct data as [| | | | | |d]; try done.
    destruct (d !! ("image_data" : str)) as [image_data|] eqn:Himg.
    + rewrite (analyze_experiment_object _ _ _ _ _ _ _ _ _ Himg) in H. cbv zeta in H.
      destruct (analyze_image_dyn _ _ _ _ _ _) as [r|e] eqn:Ha.
      2: by apply error_response_not_completed in H.
      destruct (Database.create_analysis_session _ _ _ _ _ _) as [[sid|e] st1] eqn:Hc.
      2: by apply error_response_not_completed in H.
      destruct (App.store_components _ _ _ _ _) as [[[]|e] st2] eqn:Hs.
      2: by apply error_response_not_completed in H.
      destruct (create_analysis_session_returns _ _ _ _ _ _ _ Hc) as (srow & Hrow & _).
      apply session_data_returns in Hrow as [Hr _].
      destruct r as [| | | | | |a]; try done.
      injection H as Hbody <-.
      exists d, image_data, a, sid, st1. by rewrite <- Hbody.
    + rewrite analyze_experiment_missing in H by by apply image_data_absent.
      by apply error_response_not_completed in H.
  - destruct (image_data_missing_non_dict data Hd) as [Hm | [[e Hm] | [Hm Hget]]].
    + rewrite analyze_experiment_missing in H by done.
      by apply error_response_not_completed in H.
    + unfold App.analyze_experiment, io_catch, io_bind, io_ret, io_pure in H.
      rewrite Hm in H. by apply error_response_not_completed in H.
    + unfold App.analyze_experiment, io_catch, io_bind, io_ret, io_pure in H.
      rewrite Hm, Hget in H. by apply error_response_not_completed in H.
Qed.

End RouteInversion.

Section RouteResponses.

Context {store : Type}.
Variable json_loads : str -> result value.
Variable b64decode : str -> result bytes.
Variable generate_content : str -> bytes -> result str.
Variable insert : str -> value -> io store value.
Variable select_by_id : str -> value -> io store value.
Variable str_of_exception : exception -> str.
Variable analyzer : ExperimentAnalyzer.

(** X17: a response with status 200 is given only to a body that is an
    object with the key image_data; its analysis field is what the
    analyzer returned for that image and the experiment type of the
    body (general when the body names none), and that is a dictionary
    with the keys safety_warnings, guidance and confidence_score. *)
Theorem completed_response_content (get_json : outcome value) (body : value)
        (st st' : store) :
  App.analyze_experiment json_loads b64decode generate_content store insert
                         str_of_exception analyzer get_json st
  = (Return (body, 200%nat), st') ->
  exists d image_data session_id a,
    get_json = Return (VDict d) /\
    d !! ("image_data" : str) = Some image_data /\
    analyze_image_dyn json_loads b64decode generate_content analyzer image_data
                      (default (VStr "general") (d !! ("experiment_type" : str)))
    = Return (VDict a) /\
    (body, 200%nat) = completed_response session_id (VDict a) /\
    is_Some (a !! ("safety_warnings" : str)) /\
    is_Some (a !! ("guidance" : str)) /\
    is_Some (a !! ("confidence_score" : str)).
Proof.
  intros (d & image_data & a & sid & st1 & -> & Himg & Ha & _ & _ & Hbody)
         %analyze_experiment_completed.
  exists d, image_data, sid, a. repeat (split; [done|]).
  pose proof (analyze_image_dyn_dict_keys _ _ _ _ _ _ _ Ha) as Hk.
  unfold has_optional_keys, has_key in Hk. simpl in Hk.
  apply andb_prop in Hk as [[H1 H2]%andb_prop H3].
  by apply bool_decide_eq_true in H1, H2, H3.
Qed.

(** X18: the writes of a request answered with status 200, in order:
    one row in analysis_sessions, built from the experiment id and the
    image of the body and from the analysis returned, then one row in
    experiment_components for each element of the components list of
    that analysis, each with the id of the session. *)
Theorem completed_request_writes (get_json : outcome value) (body : value)
        (st st' : store) (log : list (str * value)) :
  App.analyze_experiment json_loads b64decode generate_content
                         (store * list (str * value)) (recording insert)
                         str_of_exception analyzer get_json (st, [])
  = (Return (body, 200%nat), (st', log)) ->
  exists d session_id analysis srow rows,
    get_json = Return (VDict d) /\
    (body, 200%nat) = completed_response session_id analysis /\
    Database.session_data (default VNone (d !! ("experiment_id" : str)))
                          (default VNone (d !! ("image_data" : str))) analysis
    = Return srow /\
    log = (("analysis_sessions" : str), srow) :: rows /\
    Forall2 (component_row session_id) (components_of analysis) rows.
Proof.
  intros (d & image_data & a & sid & st1 & -> & Himg & Ha & Hc & Hs & Hbody)
         %analyze_experiment_completed.
  apply create_analysis_session_returns in Hc as (srow & Hrow & ->).
  rewrite recording_insert in Hs. cbn [snd] in Hs.
  apply store_components_log in Hs as (rows & -> & _ & Hrows).
  exists d, sid, (VDict a), srow, rows. rewrite Himg.
  repeat (split; [done|]). by apply Hrows.
Qed.

(** X19: the route never raises and answers with status 200, 400 or
    500.  Whatever the request and the outcome, it writes nothing, or
    one row in analysis_sessions followed only by rows in
    experiment_components; with status 400 it writes nothing. *)
Theorem analyze_experiment_write_order (get_json : outcome value) (st : store) :
  exists response st' log,
    App.analyze_experiment json_loads b64decode generate_content
                           (store * list (str * value)) (recording insert)
                           str_of_exception analyzer get_json (st, [])
    = (Return response, (st', log)) /\
    (response.2 = 200 \/ response.2 = 400 \/ response.2 = 500)%nat /\
    (response.2 = 400%nat -> log = []) /\
    (log = [] \/
     exists srow rows,
       log = (("analysis_sessions" : str), srow) :: rows /\
       Forall (fun entry => entry.1 = ("experiment_components" : str)) rows).
Proof.
  assert (forall text, exists response st' log,
            (Return (error_response text 500), (st, @nil (str * value)))
            = (Return response, (st', log)) /\
            (response.2 = 200 \/ response.2 = 400 \/ response.2 = 500)%nat /\
            (response.2 = 400%nat -> log = []) /\
            (log = [] \/
             exists srow rows,
               log = (("analysis_sessions" : str), srow) :: rows /\
               Forall (fun entry => entry.1 = ("experiment_components" : str)) rows))
    as Hfail.
  { intros text. eexists _, _, _. split; [reflexivity|]. simpl.
    split; [auto|]. split; [done | by left]. }
  assert (exists response st' log,
            (Return (error_response "No image data provided" 400),
             (st, @nil (str * value)))
            = (Return response, (st', log)) /\
            (response.2 = 200 \/ response.2 = 400 \/ response.2 = 500)%nat /\
            (response.2 = 400%nat -> log = []) /\
            (log = [] \/
             exists srow rows,
               log = (("analysis_sessions" : str), srow) :: rows /\
               Forall (fun entry => entry.1 = ("experiment_components" : str)) rows))
    as Hmissing.
  { eexists _, _, _. split; [reflexivity|]. simpl.
    split; [auto|]. split; [done | by left]. }
  destruct get_json as [data|e]; [|rewrite analyze_experiment_raised; apply Hfail].
  destruct (is_dict data) eqn:Hd.
  - destruct data as [| | | | | |d]; try done.
    destruct (d !! ("image_data" : str)) as [image_data|] eqn:Himg.
    + rewrite (analyze_experiment_object _ _ _ _ _ _ _ _ _ Himg). cbv zeta.
      destruct (analyze_image_dyn _ _ _ _ _ _) as [r|e] eqn:Ha; [|apply Hfail].
      destruct (Database.create_analysis_session _ _ _ _ _ _) as [[sid|e] st1] eqn:Hc.
      * destruct (create_analysis_session_returns _ _ _ _ _ _ _ Hc)
          as (srow & Hrow & ->).
        apply session_data_returns in Hrow as [Hr _].
        destruct r as [| | | | | |a]; try done.
        rewrite recording_insert. cbn [snd].
        destruct (App.store_components _ _ _ _ _) as [o [st2 log]] eqn:Hs.
        apply store_components_log in Hs as (rows & -> & Hrows & _).
        destruct o as [[]|e]; eexists _, _, _; (split; [reflexivity|]); simpl;
          (split; [auto|]); (split; [done|]); right; by eexists _, _.
      * pose proof (create_analysis_session_state (recording insert)
                      (default VNone (d !! ("experiment_id" : str))) image_data r
                      (st, [])) as Hstate.
        rewrite Hc in Hstate. cbn [snd] in Hstate.
        destruct Hstate as [-> | (srow & _ & ->)]; [apply Hfail|].
        rewrite recording_insert. cbn [snd].
        eexists _, _, _. split; [reflexivity|]. simpl.
        split; [auto|]. split; [done|]. right. by eexists _, [].
    + rewrite analyze_experiment_missing by by apply image_data_absent.
      apply Hmissing.
  - destruct (image_data_missing_non_dict data Hd) as [Hm | [[e Hm] | [Hm Hget]]].
    + rewrite analyze_experiment_missing by done. apply Hmissing.
    + unfold App.analyze_experiment, io_catch, io_bind, io_ret, io_pure.
      rewrite Hm. apply Hfail.
    + unfold App.analyze_experiment, io_catch, io_bind, io_ret, io_pure.
      rewrite Hm, Hget. apply Hfail.
Qed.

(** X20: no write is undone.  When the session has been created and
    storing the first component of the analysis fails, the request is
    answered with status 500 and the text of that failure, and the
    store stays as the failed write left it, the session row
    included. *)
Theorem component_failure_keeps_session
        (d a : gmap str value) (image_data session_id c : value) (rest : list value)
        (e : exception) (st st1 st2 : store) :
  d !! ("image_data" : str) = Some image_data ->
  analyze_image_dyn json_loads b64decode generate_content analyzer image_data
                    (default (VStr "general") (d !! ("experiment_type" : str)))
  = Return (VDict a) ->
  Database.create_analysis_session store insert
    (default VNone (d !! ("experiment_id" : str))) image_data (VDict a) st
  = (Return session_id, st1) ->
  a !! ("components" : str) = Some (VList (c :: rest)) ->
  Database.create_component store insert session_id c st1 = (Throw e, st2) ->
  App.analyze_experiment json_loads b64decode generate_content store insert
                         str_of_exception analyzer (Return (VDict d)) st
  = (Return (error_response (str_of_exception e) 500), st2).
Proof.
  intros Himg Ha Hc Hcomps Hfail.
  rewrite (analyze_experiment_object _ _ _ _ _ _ _ _ _ Himg). cbv zeta.
  rewrite Ha, Hc, store_components_dict, Hcomps.
  cbn [truthy iterate for_each]. unfold io_bind at 1. unfold io_bind at 1.
  by rewrite Hfail.
Qed.

(** X21: with a store that accepts every row, a request whose
    image_data is a string and whose analysis is a dictionary with no
    components entry or with a list of dictionaries as components is
    answered with status 200 and the analysis.  The session id of the
    response is the id of the first row with which the store answered
    the insert, into analysis_sessions, of the session row built from
    the request, and the store ends as the component writes, made
    under that id, left it. *)
Theorem accepted_request_completes
        (d a : gmap str value) (image_data : str) (st : store) :
  accepting insert ->
  d !! ("image_data" : str) = Some (VStr image_data) ->
  analyze_image_dyn json_loads b64decode generate_content analyzer (VStr image_data)
                    (default (VStr "general") (d !! ("experiment_type" : str)))
  = Return (VDict a) ->
  a !! ("components" : str) = None \/
  (exists l, a !! ("components" : str) = Some (VList l) /\
             Forall (fun c => is_dict c = true) l) ->
  exists srow data session_id st1 st',
    Database.session_data (default VNone (d !! ("experiment_id" : str)))
                          (VStr image_data) (VDict a)
    = Return (VDict srow) /\
    insert "analysis_sessions" (VDict srow) st = (Return data, st1) /\
    Database.first_id data = Return session_id /\
    App.store_components store insert session_id (VDict a) st1 = (Return tt, st') /\
    App.analyze_experiment json_loads b64decode generate_content store insert
                           str_of_exception analyzer (Return (VDict d)) st
    = (Return (completed_response session_id (VDict a)), st').
Proof.
  intros Hacc Himg Ha Hcomps.
  rewrite (analyze_experiment_object _ _ _ _ _ _ _ _ _ Himg). cbv zeta. rewrite Ha.
  destruct (session_data_string (default VNone (d !! ("experiment_id" : str)))
              image_data a) as [srow Hrow].
  { destruct Hcomps as [H | (l & H & _)]; [by left | right; by eexists]. }
  rewrite (create_analysis_session_writes _ _ _ _ _ _ Hrow).
  destruct (Hacc "analysis_sessions" srow st) as (data & id & st1 & Hins & Hid).
  rewrite Hins. cbn [fst snd obind]. rewrite Hid.
  destruct (store_components_accepting insert Hacc id a st1 Hcomps) as [st2 Hs].
  rewrite Hs. by exists srow, data, id, st1, st2.
Qed.

(** X22: without a credential and with a store that accepts every row,
    a request whose image_data is a string and whose experiment type is
    a string or is left out is answered with status 200 and the canned
    analysis of that type; when the type is left out this is the
    analysis of circuits, as the table of canned analyses has no entry
    for general. *)
Theorem mock_mode_request_completes
        (d : gmap str value) (image_data experiment_type : str) (st : store) :
  use_ai analyzer = false ->
  accepting insert ->
  d !! ("image_data" : str) = Some (VStr image_data) ->
  default (VStr "general") (d !! ("experiment_type" : str)) = VStr experiment_type ->
  (exists session_id st',
      App.analyze_experiment json_loads b64decode generate_content store insert
                             str_of_exception analyzer (Return (VDict d)) st
      = (Return (completed_response session_id (_mock_analysis experiment_type)), st')) /\
  (d !! ("experiment_type" : str) = None ->
   _mock_analysis experiment_type = mock_circuits).
Proof.
  intros Hai Hacc Himg Hty. split.
  - rewrite (analyze_experiment_object _ _ _ _ _ _ _ _ _ Himg). cbv zeta.
    rewrite Hty. unfold analyze_image_dyn. rewrite Hai, mock_dyn_string.
    destruct (mock_analysis_components experiment_type) as (a & l & -> & Hl & Hdict).
    destruct (session_data_string (default VNone (d !! ("experiment_id" : str)))
                image_data a) as [srow Hrow]; [right; by eexists|].
    destruct (create_analysis_session_accepting insert Hacc _ _ _ _ st Hrow)
      as (sid & st1 & ->).
    destruct (store_components_accepting insert Hacc sid a st1) as [st2 ->];
      [right; by eexists|].
    by exists sid, st2.
  - intros Hnone. rewrite Hnone in Hty. injection Hty as <-.
    vm_compute. reflexivity.
Qed.

(** X23: the session route.  When the store answers the lookup of the
    id in analysis_sessions with a list of rows, the route answers 404
    with Session not found for an empty list and for a first row that
    is empty, and answers with the first row and status 200 otherwise;
    when the lookup raises, it answers 500 with the text of the
    exception. *)
Theorem get_session_route_answers (session_id : str) (o : outcome value)
        (st st' : store) :
  select_by_id "analysis_sessions" (VStr session_id) st = (o, st') ->
  (forall rows, o = Return (VList rows) ->
     App.get_session store select_by_id str_of_exception session_id st
     = (Return match rows with
               | row :: _ =>
                   if truthy row then (row, 200%nat)
                   else error_response "Session not found" 404
               | [] => error_response "Session not found" 404
               end, st')) /\
  (forall e, o = Throw e ->
     App.get_session store select_by_id str_of_exception session_id st
     = (Return (error_response (str_of_exception e) 500), st')).
Proof.
  intros H.
  unfold App.get_session, Database.get_session, Database.reraise,
    io_catch, io_bind, io_ret, io_throw, io_pure.
  rewrite H. split.
  - intros rows ->. destruct rows as [|row rows]; [done|]. simpl.
    by destruct (truthy row).
  - by intros e ->.
Qed.

End RouteResponses.

Lemma completed_response_content_witness :
  exists d image_data session_id a,
    Return body_with_image = Return (VDict d) /\
    d !! ("image_data" : str) = Some image_data /\
    analyze_image_dyn Json.loads Base64.b64decode backend_failing
                      (__init__ environ_without_key) image_data
                      (default (VStr "general") (d !! ("experiment_type" : str)))
    = Return (VDict a) /\
    (response_body sample_run, 200%nat) = completed_response session_id (VDict a) /\
    is_Some (a !! ("safety_warnings" : str)) /\
    is_Some (a !! ("guidance" : str)) /\
    is_Some (a !! ("confidence_score" : str)).
Proof.
  apply (completed_response_content
           Json.loads Base64.b64decode backend_failing (recording memory_insert)
           exception_text (__init__ environ_without_key)
           (Return body_with_image) (response_body sample_run) ([], []) sample_run.2).
  reflexivity.
Defined.

Lemma completed_request_writes_witness :
  exists d session_id analysis srow rows,
    Return body_with_image = Return (VDict d) /\
    (response_body sample_run, 200%nat) = completed_response session_id analysis /\
    Database.session_data (default VNone (d !! ("experiment_id" : str)))
                          (default VNone (d !! ("image_data" : str))) analysis
    = Return srow /\
    sample_run.2.2 = (("analysis_sessions" : str), srow) :: rows /\
    Forall2 (component_row session_id) (components_of analysis) rows.
Proof.
  apply (completed_request_writes
           Json.loads Base64.b64decode backend_failing memory_insert
           exception_text (__init__ environ_without_key)
           (Return body_with_image) (response_body sample_run) [] sample_run.2.1).
  reflexivity.
Defined.

Lemma component_failure_keeps_session_witness :
  App.analyze_experiment Json.loads Base64.b64decode backend_failing
                         memory_store sessions_only_insert exception_text
                         (__init__ environ_without_key) (Return body_with_image) []
  = (Return (error_response
               (exception_text (External "connection refused")) 500),
     (Database.create_analysis_session memory_store sessions_only_insert
        (VStr "exp-1") (VStr "/9j/4AAQ") mock_circuits []).2) /\
  map fst (Database.create_analysis_session memory_store sessions_only_insert
             (VStr "exp-1") (VStr "/9j/4AAQ") mock_circuits []).2
  = [("analysis_sessions" : str)].
Proof.
  split; [|reflexivity].
  apply (component_failure_keeps_session
           Json.loads Base64.b64decode backend_failing sessions_only_insert
           exception_text (__init__ environ_without_key)
           (fields_of body_with_image) (fields_of mock_circuits)
           (VStr "/9j/4AAQ") (row_id 0)
           (hd VNone (components_of mock_circuits))
           (tl (components_of mock_circuits))
           (External "connection refused") []
           (Database.create_analysis_session memory_store sessions_only_insert
              (VStr "exp-1") (VStr "/9j/4AAQ") mock_circuits []).2);
    reflexivity.
Defined.

Lemma accepted_request_completes_witness :
  exists srow data session_id st1 st',
    Database.session_data
      (default VNone (fields_of body_with_image !! ("experiment_id" : str)))
      (VStr "/9j/4AAQ") (VDict (partial_response ∪ optional_defaults))
    = Return (VDict srow) /\
    memory_insert "analysis_sessions" (VDict srow) [] = (Return data, st1) /\
    Database.first_id data = Return session_id /\
    App.store_components memory_store memory_insert session_id
                         (VDict (partial_response ∪ optional_defaults)) st1
    = (Return tt, st') /\
    App.analyze_experiment Json.loads Base64.b64decode
                           (backend_answering partial_response_text)
                           memory_store memory_insert exception_text
                           (__init__ environ_with_key)
                           (Return (VDict (fields_of body_with_image))) []
    = (Return (completed_response session_id
                 (VDict (partial_response ∪ optional_defaults))), st').
Proof.
  apply (accepted_request_completes
           Json.loads Base64.b64decode (backend_answering partial_response_text)
           memory_insert exception_text (__init__ environ_with_key)
           (fields_of body_with_image) (partial_response ∪ optional_defaults)
           "/9j/4AAQ" []).
  - apply memory_insert_accepting.
  - vm_compute. reflexivity.
  - vm_compute. reflexivity.
  - left. vm_compute. reflexivity.
Defined.

Lemma mock_mode_request_completes_witness :
  (exists session_id st',
      App.analyze_experiment Json.loads Base64.b64decode backend_failing
                             memory_store memory_insert exception_text
                             (__init__ environ_without_key)
                             (Return (VDict (fields_of body_with_image))) []
      = (Return (completed_response session_id (_mock_analysis "general")), st')) /\
  (fields_of body_with_image !! ("experiment_type" : str) = None ->
   _mock_analysis "general" = mock_circuits).
Proof.
  apply (mock_mode_request_completes
           Json.loads Base64.b64decode backend_failing memory_insert exception_text
           (__init__ environ_without_key) (fields_of body_with_image)
           "/9j/4AAQ" "general" []).
  - reflexivity.
  - apply memory_insert_accepting.
  - vm_compute. reflexivity.
  - vm_compute. reflexivity.
Defined.

Lemma get_session_route_answers_witness :
  (forall rows, Return (VList [VDict stored_session]) = Return (VList rows) ->
     App.get_session memory_store memory_select exception_text "x" sample_store
     = (Return match rows with
               | row :: _ =>
                   if truthy row then (row, 200%nat)
                   else error_response "Session not found" 404
               | [] => error_response "Session not found" 404
               end, sample_store)) /\
  (forall e, Return (VList [VDict stored_session]) = Throw e ->
     App.get_session memory_store memory_select exception_text "x" sample_store
     = (Return (error_response (exception_text e) 500), sample_store)).
Proof.
  apply (get_session_route_answers memory_select exception_text "x"
           (Return (VList [VDict stored_session])) sample_store sample_store).
  vm_compute. reflexivity.
Defined.

Section RouteComponents.

Context {store : Type}.
Variable json_loads : str -> result value.
Variable b64decode : str -> result bytes.
Variable generate_content : str -> bytes -> result str.
Variable insert : str -> value -> io store value.
Variable str_of_exception : exception -> str.
Variable analyzer : ExperimentAnalyzer.

(** X24: the components of the analysis are not checked before the
    session is written.  With a store that accepts every row, when the
    first element of the components list of the analysis is not a
    dictionary, the request is answered with status 500 and the text of
    an [AttributeError], and the one write made is the session row. *)
Theorem malformed_component_leaves_session
        (d a : gmap str value) (image_data : str) (c : value) (rest : list value)
        (st : store) :
  accepting insert ->
  d !! ("image_data" : str) = Some (VStr image_data) ->
  analyze_image_dyn json_loads b64decode generate_content analyzer (VStr image_data)
                    (default (VStr "general") (d !! ("experiment_type" : str)))
  = Return (VDict a) ->
  a !! ("components" : str) = Some (VList (c :: rest)) ->
  is_dict c = false ->
  exists srow st',
    App.analyze_experiment json_loads b64decode generate_content
                           (store * list (str * value)) (recording insert)
                           str_of_exception analyzer (Return (VDict d)) (st, [])
    = (Return (error_response (str_of_exception AttributeError) 500),
       (st', [(("analysis_sessions" : str), srow)])).
Proof.
  intros Hacc Himg Ha Hcomps Hc.
  rewrite (analyze_experiment_object _ _ _ _ _ _ _ _ _ Himg). cbv zeta. rewrite Ha.
  destruct (session_data_string (default VNone (d !! ("experiment_id" : str)))
              image_data a) as [srow Hrow]; [right; by eexists|].
  rewrite (create_analysis_session_writes _ _ _ _ _ _ Hrow), recording_insert.
  cbn [fst snd].
  destruct (Hacc "analysis_sessions" srow st) as (data & id & st1 & -> & Hid).
  cbn [fst snd obind]. rewrite Hid, store_components_dict, Hcomps.
  cbn [truthy iterate for_each]. unfold io_bind at 1. unfold io_bind at 1.
  rewrite (create_component_fails _ _ _ _ _ (component_data_non_dict id c Hc)).
  by exists (VDict srow), st1.
Qed.

End RouteComponents.

Lemma malformed_component_leaves_session_witness :
  exists srow st',
    App.analyze_experiment Json.loads Base64.b64decode
                           (backend_answering named_components_text)
                           (memory_store * list (str * value)) (recording memory_insert)
                           exception_text (__init__ environ_with_key)
                           (Return (VDict (fields_of body_with_image))) ([], [])
    = (Return (error_response (exception_text AttributeError) 500),
       (st', [(("analysis_sessions" : str), srow)])).
Proof.
  apply (malformed_component_leaves_session
           Json.loads Base64.b64decode (backend_answering named_components_text)
           memory_insert exception_text (__init__ environ_with_key)
           (fields_of body_with_image) (named_components ∪ optional_defaults)
           "/9j/4AAQ" (VStr "LED") [] []).
  - apply memory_insert_accepting.
  - vm_compute. reflexivity.
  - vm_compute. reflexivity.
  - vm_compute. reflexivity.
  - reflexivity.
Defined.
